(** * Memory tracking and comparison instrumentation

    A shallow embedding of [memory_tracker.py] (class [MemoryTracker]) and
    [visualize_memory.py] (function [compare_implementations]).

    Conventions of the embedding.
    - Python [float] values are modelled by exact rationals ([Q]); binary64
      rounding is not modelled.  Equalities between computed numbers are
      therefore stated with [Qeq] ([==]).
    - The operating system is an explicit [World]: the readings that
      [time.time()] and [psutil.Process.memory_info().rss] return, and the
      files of the working directory.
    - A Python call either returns or raises; this is the [Result] type, and
      methods that touch the world live in the state-and-exception monad [Py].
    - [gc.collect()] has no effect that the model observes, apart from
      preceding the memory query. *)

From Stdlib Require Import QArith Qabs Qround Lqa Lia Ascii DecimalString DecimalZ.
From stdpp Require Import gmap strings list sorting.

(** ** Python results *)

(** A raised exception, identified by the name of its class. *)
Inductive exn : Type := Exn (cls : string).

Inductive Result (A : Type) : Type :=
| Ok (a : A)
| Raise (e : exn).
Arguments Ok {A} a.
Arguments Raise {A} e.

Definition IndexError : exn := Exn "IndexError".
Definition KeyError : exn := Exn "KeyError".
Definition ValueError : exn := Exn "ValueError".
Definition TypeError : exn := Exn "TypeError".
Definition EmptyDataError : exn := Exn "EmptyDataError".
Definition FileNotFoundError : exn := Exn "FileNotFoundError".
Definition LinAlgError : exn := Exn "LinAlgError".

(** ** The world a tracker runs in *)

Record World : Type := mkWorld {
  (** value returned by the n-th call of [time.time()] *)
  clock : nat -> Q;
  clock_reads : nat;
  (** resident set size, in bytes, reported by the n-th [memory_info()] *)
  rss : nat -> N;
  rss_reads : nat;
  (** [datetime.now().strftime("%Y%m%d-%H%M%S")] *)
  now_stamp : string;
  (** the working directory: file name to file content *)
  files : gmap string string;
}.

Definition Py (A : Type) : Type := World -> Result (A * World).

Definition ret {A} (a : A) : Py A := fun w => Ok (a, w).

Definition bind {A B} (m : Py A) (k : A -> Py B) : Py B :=
  fun w => match m w with
           | Ok (a, w') => k a w'
           | Raise e => Raise e
           end.

Notation "x <- m ;; k" := (bind m (fun x => k))
  (at level 100, m at level 60, right associativity).

Definition time_time : Py Q :=
  fun w => Ok (clock w (clock_reads w),
               mkWorld (clock w) (S (clock_reads w)) (rss w) (rss_reads w)
                       (now_stamp w) (files w)).

Definition memory_info_rss : Py N :=
  fun w => Ok (rss w (rss_reads w),
               mkWorld (clock w) (clock_reads w) (rss w) (S (rss_reads w))
                       (now_stamp w) (files w)).

Definition datetime_now_stamp : Py string :=
  fun w => Ok (now_stamp w, w).

(** ** memory_tracker.py: class MemoryTracker *)

Record MemoryTracker : Type := mkTracker {
  label : string;
  timestamps : list Q;
  memory_usage : list Q;
  start_time : option Q;
}.

(** [__init__(self, label="test")] *)
Definition MemoryTracker_init (lbl : option string) : MemoryTracker :=
  mkTracker (default "test" lbl) [] [] None.

(** Truth value of a Python float: every float but zero is true. *)
Definition float_truthy (x : Q) : bool := negb (Qeq_bool x 0).

Definition bytes_per_mb : Q := inject_Z (1024 * 1024).

(** [_record_point]: query the resident set size, scale it by
    [1024 * 1024], compute the elapsed time (the clock is read only when
    [start_time] is set and true), and append one entry to each list. *)
Definition _record_point (self : MemoryTracker) : Py MemoryTracker :=
  r <- memory_info_rss ;;
  let memory_mb := (inject_Z (Z.of_N r) / bytes_per_mb)%Q in
  elapsed_time <-
    match start_time self with
    | Some s =>
        if float_truthy s
        then (t <- time_time ;; ret (t - s)%Q)
        else ret 0%Q
    | None => ret 0%Q
    end ;;
  ret (mkTracker (label self)
                 (timestamps self ++ [elapsed_time])
                 (memory_usage self ++ [memory_mb])
                 (start_time self)).

Definition start (self : MemoryTracker) : Py MemoryTracker :=
  t <- time_time ;;
  _record_point (mkTracker (label self) [] [] (Some t)).

Definition record (self : MemoryTracker) : Py MemoryTracker :=
  _record_point self.

Definition stop (self : MemoryTracker) : Py MemoryTracker :=
  _record_point self.

(** The resident memory, in megabytes, that the next memory query of a world
    reports. *)
Definition next_rss_mb (w : World) : Q :=
  (inject_Z (Z.of_N (rss w (rss_reads w))) / bytes_per_mb)%Q.

(** [k] successive calls of [record()]. *)
Fixpoint record_times (k : nat) (self : MemoryTracker) : Py MemoryTracker :=
  match k with
  | O => ret self
  | S k' => self' <- record self ;; record_times k' self'
  end.

(** The samples of a tracker: entry [i] of both lists. *)
Definition samples (self : MemoryTracker) : list (Q * Q) :=
  zip (timestamps self) (memory_usage self).

Definition sample_count (self : MemoryTracker) : nat := length (samples self).

(** A world for examples: the clock advances by one second per reading from
    1000, and the process holds 2 MiB, then 3 MiB, ... *)
Definition demo_world : World :=
  mkWorld (fun n => inject_Z (1000 + Z.of_nat n))
          0
          (fun n => (2097152 + 1048576 * N.of_nat n)%N)
          0
          "20240101-000000"
          ∅.

(** ** numpy: polyfit of degree 1 *)

Definition Qsum (l : list Q) : Q := foldr Qplus 0%Q l.

Definition Qlen {A} (l : list A) : Q := inject_Z (Z.of_nat (length l)).

(** Determinant of the normal equations of a straight-line fit. *)
Definition fit_det (x : list Q) : Q :=
  (Qlen x * Qsum (zip_with Qmult x x) - Qsum x * Qsum x)%Q.

(** Result of a straight-line fit: the coefficients [z[0]] and [z[1]].
    [FitLine] is a fit of full rank.  [RankWarned] is a fit on which numpy
    found the abscissae not to determine a unique line: it issues
    [RankWarning] and returns the least-squares line of minimum norm. *)
Inductive Fit : Type :=
| FitLine (slope intercept : Q)
| RankWarned (slope intercept : Q).

(** Every abscissa is zero. *)
Definition all_zero (x : list Q) : bool := forallb (fun t => Qeq_bool t 0) x.

(** [np.polyfit(x, y, 1)].  numpy is an external library; the model follows
    its steps in exact arithmetic.
    - The argument checks: an empty [x], then a length mismatch, raise
      [TypeError].
    - The columns [x] and [1] of the design matrix are divided by their
      norms.  When every abscissa is zero the first norm is zero, the
      column becomes [nan], and the solver raises [LinAlgError].
    - When the abscissae are all equal to some [t] other than zero, the
      scaled columns are parallel: the solver returns the solution of
      minimum norm, which after unscaling is the line of slope
      [mean(y) / (2 * t)] and intercept [mean(y) / 2], and numpy warns.
    - Otherwise the result is the least-squares line, the solution of the
      normal equations.
    Rounding, overflow and underflow of binary64 are not modelled. *)
Definition polyfit1 (x y : list Q) : Result Fit :=
  match x with
  | [] => Raise TypeError
  | t :: _ =>
      if negb (length x =? length y)%nat then Raise TypeError
      else if all_zero x then Raise LinAlgError
      else
        let d := fit_det x in
        let sy := Qsum y in
        if Qeq_bool d 0
        then Ok (RankWarned (sy / Qlen y / (2 * t)) (sy / Qlen y / 2))%Q
        else
          let sx := Qsum x in
          let sxx := Qsum (zip_with Qmult x x) in
          let sxy := Qsum (zip_with Qmult x y) in
          Ok (FitLine ((Qlen x * sxy - sx * sy) / d)
                      ((sy * sxx - sx * sxy) / d))%Q
  end.

(** [np.poly1d(z)(x)]: the fitted line evaluated at every abscissa. *)
Definition poly1d_eval (z : Fit) (x : list Q) : list Q :=
  match z with
  | FitLine a b | RankWarned a b => map (fun t => a * t + b)%Q x
  end.

(** Sum of squared residuals of the line [a * t + b] over the points. *)
Definition sq_error (x y : list Q) (a b : Q) : Q :=
  Qsum (zip_with (fun t v => (v - (a * t + b)) * (v - (a * t + b)))%Q x y).

(** Sum of squared deviations of the abscissae from [c]. *)
Definition sq_dev (c : Q) (x : list Q) : Q :=
  Qsum (map (fun v => (c - v) * (c - v))%Q x).

(** ** MemoryTracker.plot *)

Record Figure : Type := mkFigure {
  fig_title : string;
  fig_curve : list (Q * Q);
  (** the fitted coefficients and the dashed line drawn from them *)
  fig_trend : option (Fit * list Q);
}.

(** The abscissae on which a guarded trend step fails: two or more of them,
    all zero. *)
Definition trend_fails (x : list Q) : bool := (1 <? length x)%nat && all_zero x.

(** The trend step of [plot]: guarded by [len(self.timestamps) > 1]. *)
Definition trend_line (x y : list Q) : Result (option (Fit * list Q)) :=
  if (1 <? length x)%nat
  then match polyfit1 x y with
       | Ok z => Ok (Some (z, poly1d_eval z x))
       | Raise e => Raise e
       end
  else Ok None.

(** [plot(title=None, save_path=None)], up to rendering: the figure that is
    returned.  [plt.plot] refuses abscissae and ordinates of different
    lengths with [ValueError].  Writing the image to [save_path] is not
    modelled. *)
Definition plot (self : MemoryTracker) (title : option string) : Result Figure :=
  if negb (length (timestamps self) =? length (memory_usage self))%nat
  then Raise ValueError
  else
    let ttl := match title with
               | Some s => if String.eqb s EmptyString
                           then "Memory Usage Over Time: " +:+ label self
                           else s
               | None => "Memory Usage Over Time: " +:+ label self
               end in
    match trend_line (timestamps self) (memory_usage self) with
    | Ok tr => Ok (mkFigure ttl (samples self) tr)
    | Raise e => Raise e
    end.

(** ** pandas: data frames and their CSV text *)

(** The text of numbers.  How pandas writes a float into a CSV field, how
    [read_csv] reads a numeric field ([None]: the field is not a number), and
    Python's [format(x, ".2f")] are external; the model takes them as an
    interface. *)
Class FloatText : Type := {
  float_repr : Q -> string;
  float_parse : string -> option Q;
  float_fmt2 : Q -> string;
}.

(** A data frame of numeric columns: the columns in order, each with its
    name.  All columns of a frame have the same length. *)
Definition DataFrame : Type := list (string * list Q).

(** [pd.DataFrame(data)] for a dict of lists: [ValueError] unless all lists
    have the same length. *)
Definition pd_DataFrame (data : list (string * list Q)) : Result DataFrame :=
  match data with
  | [] => Ok []
  | (_, c) :: rest =>
      if forallb (fun kv => (length (snd kv) =? length c)%nat) rest
      then Ok data
      else Raise ValueError
  end.

(** [len(df)] *)
Definition df_len (df : DataFrame) : nat :=
  match df with
  | [] => 0
  | (_, c) :: _ => length c
  end.

(** [df[name]] *)
Fixpoint df_getitem (df : DataFrame) (name : string) : Result (list Q) :=
  match df with
  | [] => Raise KeyError
  | (k, c) :: rest => if String.eqb k name then Ok c else df_getitem rest name
  end.

(** [df[name] = values]: replace the column in place, or append a new one. *)
Fixpoint df_setitem (df : DataFrame) (name : string) (values : list Q) : DataFrame :=
  match df with
  | [] => [(name, values)]
  | (k, c) :: rest =>
      if String.eqb k name then (k, values) :: rest
      else (k, c) :: df_setitem rest name values
  end.

(** [series.iloc[i]]: positional lookup, negative positions count from the
    end, [IndexError] out of bounds. *)
Definition iloc (s : list Q) (i : Z) : Result Q :=
  let n := Z.of_nat (length s) in
  let j := if (i <? 0)%Z then (n + i)%Z else i in
  if ((j <? 0) || (n <=? j))%Z then Raise IndexError
  else match s !! Z.to_nat j with
       | Some v => Ok v
       | None => Raise IndexError
       end.

Definition newline_char : ascii := ascii_of_nat 10.
Definition comma_char : ascii := ascii_of_nat 44.
Definition carriage_char : ascii := ascii_of_nat 13.
Definition quote_char : ascii := ascii_of_nat 34.
Definition space_char : ascii := ascii_of_nat 32.
Definition tab_char : ascii := ascii_of_nat 9.
Definition newline : string := String newline_char EmptyString.

(** Rows from columns and columns from rows: [n] is the length of the inner
    lists. *)
Definition transpose {A} (n : nat) (m : list (list A)) : list (list A) :=
  foldr (zip_with cons) (replicate n []) m.

(** [df.to_csv(path, index=False)]: the text written.  A header line with
    the column names, then one line per row, fields separated by commas,
    every line ended by a newline. *)
Definition csv_lines `{FloatText} (df : DataFrame) : list string :=
  String.concat "," (map fst df)
  :: map (fun r => String.concat "," (map float_repr r))
         (transpose (df_len df) (map snd df)).

Definition unlines (lines : list string) : string :=
  foldr (fun l rest => l +:+ newline +:+ rest) EmptyString lines.

Definition to_csv `{FloatText} (df : DataFrame) : string :=
  unlines (csv_lines df).

(** [str.split(sep)] for a one-character separator. *)
Fixpoint split_on (sep : ascii) (s : string) : list string :=
  match s with
  | EmptyString => [EmptyString]
  | String c s' =>
      if Ascii.eqb c sep then EmptyString :: split_on sep s'
      else match split_on sep s' with
           | x :: xs => String c x :: xs
           | [] => [String c EmptyString]
           end
  end.

Definition nonblank (s : string) : bool := negb (String.eqb s EmptyString).

(** The character occurs in the string. *)
Fixpoint has_char (c : ascii) (s : string) : bool :=
  match s with
  | EmptyString => false
  | String a s' => Ascii.eqb a c || has_char c s'
  end.

Fixpoint string_nodup (l : list string) : bool :=
  match l with
  | [] => true
  | x :: xs => negb (existsb (String.eqb x) xs) && string_nodup xs
  end.

Fixpoint parse_fields `{FloatText} (fields : list string) : option (list Q) :=
  match fields with
  | [] => Some []
  | f :: fs =>
      match float_parse f, parse_fields fs with
      | Some v, Some vs => Some (v :: vs)
      | _, _ => None
      end
  end.

Fixpoint parse_rows `{FloatText} (k : nat) (lines : list string)
  : option (list (list Q)) :=
  match lines with
  | [] => Some []
  | l :: ls =>
      match parse_fields (split_on comma_char l), parse_rows k ls with
      | Some r, Some rs => if (length r =? k)%nat then Some (r :: rs) else None
      | _, _ => None
      end
  end.

(** The line ends of a text, as the reader sees them: a carriage return
    before a newline belongs to the line end.  [None] for a text with a
    carriage return that no newline follows. *)
Fixpoint crlf_to_lf (s : string) : option string :=
  match s with
  | EmptyString => Some EmptyString
  | String c s' =>
      if Ascii.eqb c carriage_char then
        match s' with
        | String c' _ => if Ascii.eqb c' newline_char then crlf_to_lf s' else None
        | EmptyString => None
        end
      else option_map (String c) (crlf_to_lf s')
  end.

(** A line the reader skips: empty, or made of spaces and tabs alone. *)
Fixpoint blank_line (s : string) : bool :=
  match s with
  | EmptyString => true
  | String c s' =>
      (Ascii.eqb c space_char || Ascii.eqb c tab_char) && blank_line s'
  end.

(** [pd.read_csv] on the text of a file.  Lines end with a newline or with a
    carriage return and a newline; blank lines are skipped; a text without
    any other line raises [EmptyDataError].  The model covers rectangular
    numeric tables under distinct, non-empty column names and answers [None]
    elsewhere: for a text with a double quote (quoted fields) or with a
    carriage return that no newline follows, and where pandas pads short
    rows with NaN or keeps non-numeric columns as text, which a numeric
    frame cannot hold. *)
Definition read_csv_text `{FloatText} (text : string) : option (Result DataFrame) :=
  if has_char quote_char text then None
  else
    match crlf_to_lf text with
    | None => None
    | Some text' =>
        match filter (fun l => Is_true (negb (blank_line l)))
                     (split_on newline_char text') with
        | [] => Some (Raise EmptyDataError)
        | header :: body =>
            let names := split_on comma_char header in
            if forallb nonblank names && string_nodup names then
              match parse_rows (length names) body with
              | Some rows => Some (Ok (zip names (transpose (length names) rows)))
              | None => None
              end
            else None
        end
    end.

(** ** MemoryTracker.save_data *)

Definition lift {A} (r : Result A) : Py A :=
  fun w => match r with
           | Ok a => Ok (a, w)
           | Raise e => Raise e
           end.

Definition write_text (path text : string) : Py unit :=
  fun w => Ok (tt, mkWorld (clock w) (clock_reads w) (rss w) (rss_reads w)
                           (now_stamp w) (<[path := text]> (files w))).

(** [save_data(filename=None)]: a missing or empty file name is replaced by
    a name built from the label and the current date; the two lists become
    the columns [timestamp] and [memory_mb] of a frame, written as CSV
    without the index.  Returns the file name. *)
Definition save_data `{FloatText} (self : MemoryTracker) (filename : option string)
  : Py string :=
  filename <-
    match filename with
    | Some f =>
        if nonblank f then ret f
        else (ts <- datetime_now_stamp ;;
              ret ("memory_usage_" +:+ label self +:+ "_" +:+ ts +:+ ".csv"))
    | None =>
        ts <- datetime_now_stamp ;;
        ret ("memory_usage_" +:+ label self +:+ "_" +:+ ts +:+ ".csv")
    end ;;
  df <- lift (pd_DataFrame [("timestamp", timestamps self);
                            ("memory_mb", memory_usage self)]) ;;
  _ <- write_text filename (to_csv df) ;;
  ret filename.

(** [pd.read_csv(path)] in a world. *)
Definition read_csv `{FloatText} (path : string) (w : World)
  : option (Result DataFrame) :=
  match files w !! path with
  | None => Some (Raise FileNotFoundError)
  | Some text => read_csv_text text
  end.

(** ** visualize_memory.py: compare_implementations *)

Definition rbind {A B} (r : Result A) (k : A -> Result B) : Result B :=
  match r with
  | Ok a => k a
  | Raise e => Raise e
  end.

Notation "x <<- r ;; k" := (rbind r (fun x => k))
  (at level 100, r at level 60, right associativity).

(** The frame that holds a series of samples under the column names the
    tracker saves them with. *)
Definition series_frame (s : list (Q * Q)) : DataFrame :=
  [("timestamp", s.*1); ("memory_mb", s.*2)].

(** A trend over two columns of a frame, guarded by [len(df) > 1]. *)
Definition frame_trend (df : DataFrame) (ycol : string)
  : Result (option (Fit * list Q)) :=
  if (1 <? df_len df)%nat then
    x <<- df_getitem df "timestamp" ;;
    y <<- df_getitem df ycol ;;
    z <<- polyfit1 x y ;;
    x' <<- df_getitem df "timestamp" ;;
    Ok (Some (z, poly1d_eval z x'))
  else Ok None.

Record Report : Type := mkReport {
  bad_initial : Q;
  bad_final : Q;
  bad_growth : Q;
  good_initial : Q;
  good_final : Q;
  good_growth : Q;
  (** the value printed after [Difference:] *)
  growth_difference : Q;
  stats_text : string;
  bad_trend : option (Fit * list Q);
  good_trend : option (Fit * list Q);
  bad_normalized : list Q;
  good_normalized : list Q;
  bad_normalized_trend : option (Fit * list Q);
  good_normalized_trend : option (Fit * list Q);
}.

Definition stats_block `{FloatText} (name : string) (initial final growth : Q) : string :=
  name +:+ " Implementation:" +:+ newline
  +:+ "  Initial: " +:+ float_fmt2 initial +:+ " MB" +:+ newline
  +:+ "  Final: " +:+ float_fmt2 final +:+ " MB" +:+ newline
  +:+ "  Growth: " +:+ float_fmt2 growth +:+ " MB" +:+ newline +:+ newline.

(** The body of [compare_implementations] once both frames are loaded, up to
    rendering: the numbers and texts that go into the two figures. *)
Definition compare_frames `{FloatText} (bad_data good_data : DataFrame)
  : Result Report :=
  (* first figure: both curves and their trends *)
  _ <<- df_getitem bad_data "timestamp" ;;
  _ <<- df_getitem bad_data "memory_mb" ;;
  _ <<- df_getitem good_data "timestamp" ;;
  _ <<- df_getitem good_data "memory_mb" ;;
  bad_tr <<- frame_trend bad_data "memory_mb" ;;
  good_tr <<- frame_trend good_data "memory_mb" ;;
  (* statistics *)
  bad_m <<- df_getitem bad_data "memory_mb" ;;
  bad_i <<- iloc bad_m 0 ;;
  bad_m' <<- df_getitem bad_data "memory_mb" ;;
  bad_f <<- iloc bad_m' (-1) ;;
  let bad_g := (bad_f - bad_i)%Q in
  good_m <<- df_getitem good_data "memory_mb" ;;
  good_i <<- iloc good_m 0 ;;
  good_m' <<- df_getitem good_data "memory_mb" ;;
  good_f <<- iloc good_m' (-1) ;;
  let good_g := (good_f - good_i)%Q in
  let diff := (bad_g - good_g)%Q in
  let text :=
    stats_block "Bad" bad_i bad_f bad_g
    +:+ stats_block "Good" good_i good_f good_g
    +:+ "Difference: " +:+ float_fmt2 diff +:+ " MB" in
  (* second figure: curves shifted to start from 0 *)
  bad_c <<- df_getitem bad_data "memory_mb" ;;
  bad_0 <<- iloc bad_c 0 ;;
  let bad_data2 := df_setitem bad_data "normalized_mb"
                     (map (fun v => v - bad_0)%Q bad_c) in
  good_c <<- df_getitem good_data "memory_mb" ;;
  good_0 <<- iloc good_c 0 ;;
  let good_data2 := df_setitem good_data "normalized_mb"
                      (map (fun v => v - good_0)%Q good_c) in
  _ <<- df_getitem bad_data2 "timestamp" ;;
  bad_n <<- df_getitem bad_data2 "normalized_mb" ;;
  _ <<- df_getitem good_data2 "timestamp" ;;
  good_n <<- df_getitem good_data2 "normalized_mb" ;;
  bad_ntr <<- frame_trend bad_data2 "normalized_mb" ;;
  good_ntr <<- frame_trend good_data2 "normalized_mb" ;;
  Ok (mkReport bad_i bad_f bad_g good_i good_f good_g diff text
               bad_tr good_tr bad_n good_n bad_ntr good_ntr).

(** [glob.glob(prefix + "*" + suffix)] over the working directory. *)
Definition glob_match (prefix suffix name : string) : bool :=
  let lp := String.length prefix in
  let ls := String.length suffix in
  let ln := String.length name in
  (lp + ls <=? ln)%nat
  && String.prefix prefix name
  && String.eqb (String.substring (ln - ls) ls name) suffix
  && negb (has_char (ascii_of_nat 47) name).

Definition glob (prefix suffix : string) (w : World) : list string :=
  List.filter (glob_match prefix suffix) (map_to_list (files w)).*1.

(** [sorted] on strings. *)
Fixpoint insert_sorted (s : string) (l : list string) : list string :=
  match l with
  | [] => [s]
  | x :: xs => if String.leb s x then s :: l else x :: insert_sorted s xs
  end.

Definition sorted (l : list string) : list string := foldr insert_sorted [] l.

Inductive Outcome : Type :=
| NoCsvFiles
| LoadError (e : exn)
| Compared (r : Report).

(** [compare_implementations()]: the latest file of each implementation is
    loaded (any exception of the loading step is caught and reported), then
    the frames are compared.  The images written are not modelled. *)
Definition compare_implementations `{FloatText} (w : World)
  : option (Result Outcome) :=
  let bad_csvs := sorted (glob "bad_implementation_memory_" ".csv" w) in
  let good_csvs := sorted (glob "good_implementation_memory_" ".csv" w) in
  match last bad_csvs, last good_csvs with
  | Some bad_csv, Some good_csv =>
      match read_csv bad_csv w with
      | None => None
      | Some (Raise e) => Some (Ok (LoadError e))
      | Some (Ok bad_data) =>
          match read_csv good_csv w with
          | None => None
          | Some (Raise e) => Some (Ok (LoadError e))
          | Some (Ok good_data) =>
              Some (r <<- compare_frames bad_data good_data ;; Ok (Compared r))
          end
      end
  | _, _ => Some (Ok NoCsvFiles)
  end.

(** ** A concrete number text, for examples

    Numbers are written in millionths, in scientific notation: [2.5] is
    [2500000e-6].  Python reads such a field as a float.  What is read back
    differs from what was written by less than one millionth. *)

Definition million : Q := inject_Z 1000000.

Definition micro_repr (x : Q) : string :=
  NilEmpty.string_of_int (Z.to_int (Qfloor (x * million)%Q)) +:+ "e-6".

Definition micro_parse (s : string) : option Q :=
  match split_on (ascii_of_nat 101) s with
  | [m; e] =>
      if String.eqb e "-6" then
        match NilEmpty.int_of_string m with
        | Some d => Some (inject_Z (Z.of_int d) / million)%Q
        | None => None
        end
      else None
  | _ => None
  end.

(** Two decimals, rounding half up. *)
Definition micro_fmt2 (x : Q) : string :=
  let n := Qfloor (x * inject_Z 100 + (1 # 2))%Q in
  let a := Z.abs n in
  let frac := NilEmpty.string_of_uint (N.to_uint (Z.to_N (a mod 100))) in
  (if (n <? 0)%Z then "-" else EmptyString)
  +:+ NilZero.string_of_uint (N.to_uint (Z.to_N (a / 100))) +:+ "."
  +:+ (if (a mod 100 <? 10)%Z then "0" else EmptyString) +:+ frac.

Definition micro_text : FloatText :=
  {| float_repr := micro_repr; float_parse := micro_parse; float_fmt2 := micro_fmt2 |}.

(** Equality up to the precision of [micro_text]. *)
Definition within_a_millionth (x y : Q) : Prop :=
  (Qabs (x - y) <= 1 # 1000000)%Q.

(** The line of a sample in the saved text. *)
Definition sample_line `{FloatText} (s : Q * Q) : string :=
  float_repr s.1 +:+ "," +:+ float_repr s.2.

(** Two samples that agree, component by component, up to [approx]. *)
Definition approx_sample (approx : Q -> Q -> Prop) (p q : Q * Q) : Prop :=
  approx p.1 q.1 /\ approx p.2 q.2.

(** A field that can stand in a CSV line as it is. *)
Definition plain_field (s : string) : Prop :=
  s <> EmptyString
  /\ has_char comma_char s = false
  /\ has_char newline_char s = false.

(** A field that the reader takes as it stands: it holds no quote and no
    carriage return. *)
Definition unquoted_field (s : string) : Prop :=
  has_char carriage_char s = false
  /\ has_char quote_char s = false.

(** Trackers and series used in examples. *)
Definition fresh_tracker : MemoryTracker := MemoryTracker_init None.

Definition run_tracker (m : Py MemoryTracker) (w : World) : MemoryTracker * World :=
  match m w with
  | Ok tw => tw
  | Raise _ => (fresh_tracker, w)
  end.

(** [start(); record(); record(); stop()] in the example world. *)
Definition demo_tracker : MemoryTracker :=
  fst (run_tracker (t <- start fresh_tracker ;;
                    t <- record t ;;
                    t <- record t ;;
                    stop t) demo_world).

(** A tracker that holds the samples of [line_series]. *)
Definition line_tracker : MemoryTracker :=
  mkTracker "line" [0; 1; 2; 3]%Q [100; 110; 120; 130]%Q (Some 1000%Q).

(** [start()] alone: a tracker that holds one sample. *)
Definition single_tracker : MemoryTracker :=
  fst (run_tracker (start fresh_tracker) demo_world).

Definition line_series : list (Q * Q) :=
  [(0, 100); (1, 110); (2, 120); (3, 130)]%Q.

(** The world left by a computation. *)
Definition world_after {A} (m : Py A) (w : World) : World :=
  match m w with
  | Ok (_, w') => w'
  | Raise _ => w
  end.

(** A working directory for [compare_implementations]: the file of the
    singleton implementation comes from a tracker that never recorded
    anything, the other from [demo_tracker]. *)
Definition empty_run_world : World :=
  world_after
    (_ <- @save_data micro_text fresh_tracker
            (Some "bad_implementation_memory_error.csv") ;;
     @save_data micro_text demo_tracker
       (Some "good_implementation_memory_error.csv"))
    demo_world.

(** A working directory in which both files hold the samples of
    [demo_tracker]. *)
Definition twin_run_world : World :=
  world_after
    (_ <- @save_data micro_text demo_tracker
            (Some "bad_implementation_memory_error.csv") ;;
     @save_data micro_text demo_tracker
       (Some "good_implementation_memory_error.csv"))
    demo_world.

(** [record(); record()] on a tracker that was never started: two samples,
    both at elapsed time 0. *)
Definition unstarted_tracker : MemoryTracker :=
  fst (run_tracker (t <- record fresh_tracker ;; record t) demo_world).

(** A working directory in which both files hold the samples of
    [unstarted_tracker]. *)
Definition unstarted_run_world : World :=
  world_after
    (_ <- @save_data micro_text unstarted_tracker
            (Some "bad_implementation_memory_error.csv") ;;
     @save_data micro_text unstarted_tracker
       (Some "good_implementation_memory_error.csv"))
    demo_world.

(** The growth difference that [compare_implementations] reports. *)
Definition reported_difference (o : option (Result Outcome)) : option Q :=
  match o with
  | Some (Ok (Compared r)) => Some (growth_difference r)
  | _ => None
  end.

(** ** Sequences of tracker calls *)

(** The three methods a harness calls on a tracker between its creation and
    the saving of its data. *)
Inductive Call : Type := CallStart | CallRecord | CallStop.

Definition call (c : Call) (self : MemoryTracker) : Py MemoryTracker :=
  match c with
  | CallStart => start self
  | CallRecord => record self
  | CallStop => stop self
  end.

Fixpoint calls (cs : list Call) (self : MemoryTracker) : Py MemoryTracker :=
  match cs with
  | [] => ret self
  | c :: cs' => self' <- call c self ;; calls cs' self'
  end.

(** The number of samples a tracker holds after the calls [cs], when it
    held [n] before: [start()] leaves one, every other call adds one. *)
Definition samples_after (cs : list Call) (n : nat) : nat :=
  fold_left (fun k c => match c with CallStart => 1 | _ => S k end) cs n.

(** The usual run of a harness: [start()], [k] times [record()], then
    [stop()], on a new tracker. *)
Definition harness_run (lbl : option string) (k : nat) : Py MemoryTracker :=
  t <- start (MemoryTracker_init lbl) ;;
  t <- record_times k t ;;
  stop t.

Definition mb_of_bytes (r : N) : Q := (inject_Z (Z.of_N r) / bytes_per_mb)%Q.

(** A clock that never runs backwards. *)
Definition monotone_clock (w : World) : Prop :=
  forall i j, i <= j -> (clock w i <= clock w j)%Q.

(** What a tracker carries along a run under a monotone clock: without a
    (true) start time every elapsed time is 0; with one, the start time is
    an earlier clock reading and every elapsed time lies between 0 and the
    distance from the start time to any later reading. *)
Definition times_bounded (self : MemoryTracker) (w : World) : Prop :=
  match start_time self with
  | Some s =>
      if float_truthy s then
        (exists i, i < clock_reads w /\ s = clock w i)
        /\ Forall (fun e => (0 <= e)%Q
                            /\ forall j, clock_reads w <= j -> (e <= clock w j - s)%Q)
                  (timestamps self)
      else Forall (fun e => e = 0%Q) (timestamps self)
  | None => Forall (fun e => e = 0%Q) (timestamps self)
  end.

(** The name [save_data] builds when it is given none. *)
Definition default_filename (self : MemoryTracker) (w : World) : string :=
  "memory_usage_" +:+ label self +:+ "_" +:+ now_stamp w +:+ ".csv".

(** ** Comparison: columns *)

(** A frame has a column of that name. *)
Definition has_column (df : DataFrame) (name : string) : Prop :=
  name ∈ df.*1.

(** ** article_demo.py: format_memory *)

(** The loop of [format_memory] over the units that are left: the value is
    returned with the first unit under which it is below 1024, or with
    [GB]; it is divided by 1024 on the way to the next unit.  [None] is
    Python's result of a loop that ends without [return]. *)
Fixpoint format_memory_loop (units : list string) (bytes_value : Q)
  : option (Q * string) :=
  match units with
  | [] => None
  | unit :: rest =>
      if negb (Qle_bool 1024 bytes_value) || String.eqb unit "GB"
      then Some (bytes_value, unit)
      else format_memory_loop rest (bytes_value / 1024)%Q
  end.

Definition memory_units : list string := ["B"; "KB"; "MB"; "GB"].

Definition format_memory `{FloatText} (bytes_value : Q) : option string :=
  match format_memory_loop memory_units bytes_value with
  | Some (v, unit) => Some (float_fmt2 v +:+ " " +:+ unit)
  | None => None
  end.

(** Working directories for examples: two files of the singleton
    implementation and one of the other; a directory without any series;
    and one whose singleton file is blank. *)
Definition two_bad_files_world : World :=
  mkWorld (clock demo_world) 0 (rss demo_world) 0 "20240101-000000"
    (<["bad_implementation_memory_error.csv" := "timestamp,memory_mb" +:+ newline]>
     (<["bad_implementation_memory_success.csv" := "timestamp,memory_mb" +:+ newline]>
      (<["good_implementation_memory_error.csv" := "timestamp,memory_mb" +:+ newline]>
       ∅))).

Definition no_series_world : World :=
  mkWorld (clock demo_world) 0 (rss demo_world) 0 "20240101-000000"
    (<["notes.txt" := "nothing"]> ∅).

Definition blank_file_world : World :=
  mkWorld (clock demo_world) 0 (rss demo_world) 0 "20240101-000000"
    (<["bad_implementation_memory_error.csv" := newline +:+ newline]>
     (<["good_implementation_memory_error.csv" := "timestamp,memory_mb" +:+ newline]>
      ∅)).

(** ** bad_implementation.py and good_implementation.py

    A request is a dict read through [.get]: the user id and the token are
    strings or absent ([None]); the payload is any nesting of dicts and
    strings.  With such requests no exception other than an [APIException]
    arises in [handle_request], so the handler of [Exception] is never
    entered. *)

#[warnings="-register-all"] Inductive PyVal : Type :=
| PyStr (s : string)
| PyDict (items : list (string * PyVal)).

Record Request : Type := mkRequest {
  rq_user_id : option string;
  rq_token : option string;
  rq_payload : option PyVal;
}.

Record User : Type := mkUser { user_name : string; user_email : string }.

(** [{"user_id": ..., "authenticated": ...}] *)
Record AuthInfo : Type := mkAuthInfo { auth_user_id : string; authenticated : bool }.

(** One entry of a traceback, with what its frame holds: the frame of a
    [UserService] method holds the argument, the frame of [handle_request]
    the request and the local [large_request_payload]. *)
Inductive TbEntry : Type :=
| TbService (method : string) (argument : option string)
| TbHandler (request_data : Request) (large_request_payload : PyVal).

Record APIException : Type := mkAPIException {
  message : string;
  status_code : Z;
  error_code : option string;
  traceback : list TbEntry;
}.

(** Python's rule for an exception that leaves a frame, as the docstring of
    bad_implementation.py puts it ("Python attaches a new traceback to the
    exception each time it's raised, without garbage collecting previous
    ones"): an entry for the frame is put in front of the entries the
    object already carries. *)
Definition tb_here (entry : TbEntry) (e : APIException) : APIException :=
  mkAPIException (message e) (status_code e) (error_code e)
                 (entry :: traceback e).

(** The class attributes of [Errors] in bad_implementation.py: four
    exception objects made once, when the module is loaded. *)
Inductive ErrorName : Type :=
| UserNotFound | TokenInvalid | AuthenticationFailed | ServerError.

Record Errors : Type := mkErrors {
  user_not_found : APIException;
  token_invalid : APIException;
  authentication_failed : APIException;
  server_error : APIException;
}.

Definition new_error (which : ErrorName) : APIException :=
  match which with
  | UserNotFound =>
      mkAPIException "User was not found" 404 (Some "USER_NOT_FOUND") []
  | TokenInvalid =>
      mkAPIException "The provided token is invalid" 401 (Some "TOKEN_INVALID") []
  | AuthenticationFailed =>
      mkAPIException "Authentication failed" 401 (Some "AUTH_FAILED") []
  | ServerError =>
      mkAPIException "Internal server error occurred" 500 (Some "SERVER_ERROR") []
  end.

Definition Errors_loaded : Errors :=
  mkErrors (new_error UserNotFound) (new_error TokenInvalid)
           (new_error AuthenticationFailed) (new_error ServerError).

Definition get_error (E : Errors) (which : ErrorName) : APIException :=
  match which with
  | UserNotFound => user_not_found E
  | TokenInvalid => token_invalid E
  | AuthenticationFailed => authentication_failed E
  | ServerError => server_error E
  end.

Definition set_error (E : Errors) (which : ErrorName) (e : APIException) : Errors :=
  match which with
  | UserNotFound =>
      mkErrors e (token_invalid E) (authentication_failed E) (server_error E)
  | TokenInvalid =>
      mkErrors (user_not_found E) e (authentication_failed E) (server_error E)
  | AuthenticationFailed =>
      mkErrors (user_not_found E) (token_invalid E) e (server_error E)
  | ServerError =>
      mkErrors (user_not_found E) (token_invalid E) (authentication_failed E) e
  end.

(** The exception object [which] of [Errors] leaves a frame. *)
Definition leave_frame (E : Errors) (which : ErrorName) (entry : TbEntry) : Errors :=
  set_error E which (tb_here entry (get_error E which)).

Record UserService : Type := mkUserService { users : gmap string User }.

Definition UserService_init : UserService :=
  mkUserService
    (<["user1" := mkUser "John" "john@example.com"]>
     (<["user2" := mkUser "Alice" "alice@example.com"]> ∅)).

(** [self.users.get(user_id)] *)
Definition users_get (self : UserService) (user_id : option string) : option User :=
  match user_id with
  | Some k => users self !! k
  | None => None
  end.

(** [not token or token == "invalid"] *)
Definition token_rejected (token : option string) : bool :=
  match token with
  | None => true
  | Some t => String.eqb t EmptyString || String.eqb t "invalid"
  end.

Definition auth_info_user1 : AuthInfo := mkAuthInfo "user1" true.

(** bad_implementation.py: the methods raise the objects of [Errors]. *)
Definition get_user_bad (E : Errors) (self : UserService) (user_id : option string)
  : Errors * (ErrorName + User) :=
  match users_get self user_id with
  | Some user => (E, inr user)
  | None =>
      (leave_frame E UserNotFound (TbService "get_user" user_id), inl UserNotFound)
  end.

Definition authenticate_user_bad (E : Errors) (self : UserService)
           (token : option string) : Errors * (ErrorName + AuthInfo) :=
  if token_rejected token
  then (leave_frame E TokenInvalid (TbService "authenticate_user" token),
        inl TokenInvalid)
  else (E, inr auth_info_user1).

Record RequestHandler : Type := mkRequestHandler { user_service : UserService }.

Definition RequestHandler_init : RequestHandler :=
  mkRequestHandler UserService_init.

(** The response dicts of [handle_request]. *)
Inductive Response : Type :=
| Success (user : User) (auth : AuthInfo)
| ApiError (msg : string) (status : Z) (code : option string)
| GenericError (msg : string) (status : Z).

(** ["x" * n] *)
Fixpoint repeat_x (n : nat) : string :=
  match n with
  | O => EmptyString
  | S n' => String (ascii_of_nat 120) (repeat_x n')
  end.

(** [request_data.get("payload", {"default": "x" * 10000})] *)
Definition payload_or_default (request_data : Request) : PyVal :=
  match rq_payload request_data with
  | Some p => p
  | None => PyDict [("default", PyStr (repeat_x (100 * 100)))]
  end.

(** The [except APIException as e] clause: the exception reaches the frame
    of [handle_request], which adds its entry, and the response is read off
    the object. *)
Definition caught_bad (E : Errors) (which : ErrorName) (request_data : Request)
  : Errors * Response :=
  let E' := leave_frame E which
              (TbHandler request_data (payload_or_default request_data)) in
  let e := get_error E' which in
  (E', ApiError (message e) (status_code e) (error_code e)).

Definition handle_request_bad (E : Errors) (self : RequestHandler)
           (request_data : Request) : Errors * Response :=
  let user_id := rq_user_id request_data in
  let token := rq_token request_data in
  match authenticate_user_bad E (user_service self) token with
  | (E1, inl which) => caught_bad E1 which request_data
  | (E1, inr auth_info) =>
      match get_user_bad E1 (user_service self) user_id with
      | (E2, inl which) => caught_bad E2 which request_data
      | (E2, inr user) => (E2, Success user auth_info)
      end
  end.

(** good_implementation.py: the methods raise an object made on the spot. *)
Definition get_user_good (self : UserService) (user_id : option string)
  : APIException + User :=
  match users_get self user_id with
  | Some user => inr user
  | None => inl (tb_here (TbService "get_user" user_id) (new_error UserNotFound))
  end.

Definition authenticate_user_good (self : UserService) (token : option string)
  : APIException + AuthInfo :=
  if token_rejected token
  then inl (tb_here (TbService "authenticate_user" token) (new_error TokenInvalid))
  else inr auth_info_user1.

(** The exception object bound to [e] in [handle_request], if one is
    caught, or else the user and the authentication found. *)
Definition handle_request_good_try (self : RequestHandler) (request_data : Request)
  : APIException + (User * AuthInfo) :=
  let entry := TbHandler request_data (payload_or_default request_data) in
  match authenticate_user_good (user_service self) (rq_token request_data) with
  | inl e => inl (tb_here entry e)
  | inr auth_info =>
      match get_user_good (user_service self) (rq_user_id request_data) with
      | inl e => inl (tb_here entry e)
      | inr user => inr (user, auth_info)
      end
  end.

Definition handle_request_good (self : RequestHandler) (request_data : Request)
  : Response :=
  match handle_request_good_try self request_data with
  | inl e => ApiError (message e) (status_code e) (error_code e)
  | inr (user, auth_info) => Success user auth_info
  end.

(** A handler serving requests one after the other. *)
Fixpoint serve_bad (E : Errors) (self : RequestHandler) (requests : list Request)
  : Errors * list Response :=
  match requests with
  | [] => (E, [])
  | r :: rest =>
      let '(E1, resp) := handle_request_bad E self r in
      let '(E2, resps) := serve_bad E1 self rest in
      (E2, resp :: resps)
  end.

(** A request that ends in an error response. *)
Definition request_fails (self : RequestHandler) (request_data : Request) : bool :=
  token_rejected (rq_token request_data)
  || negb (bool_decide (is_Some (users_get (user_service self)
                                           (rq_user_id request_data)))).

(** The objects of [Errors] still say what they said when the module was
    loaded. *)
Definition errors_intact (E : Errors) : Prop :=
  forall which,
    message (get_error E which) = message (new_error which)
    /\ status_code (get_error E which) = status_code (new_error which)
    /\ error_code (get_error E which) = error_code (new_error which).

(** All traceback entries that the objects of [Errors] carry. *)
Definition retained_entries (E : Errors) : list TbEntry :=
  traceback (user_not_found E) ++ traceback (token_invalid E)
  ++ traceback (authentication_failed E) ++ traceback (server_error E).

(** ** test_bad_implementation.py: run_test *)

(** [str(n)] for a natural number. *)
Definition str_of_nat (n : nat) : string :=
  NilZero.string_of_uint (Nat.to_uint n).

(** The request of iteration [i]. *)
Definition test_request (user_exists : bool) (i : nat) : Request :=
  mkRequest
    (Some (if user_exists then "user1"
           else "nonexistent_user_" +:+ str_of_nat i))
    (Some (if user_exists then "valid" else "invalid"))
    (Some (PyDict
             [("data", PyStr (repeat_x 1000));
              ("meta",
               PyDict (map (fun j => ("field_" +:+ str_of_nat j,
                                      PyStr ("value_" +:+ str_of_nat j)))
                           (seq 0 100)))])).

(** The loop over the requests: each is handled, and memory is recorded
    after every hundredth one, counting from the first. *)
Fixpoint run_test_loop (handler : RequestHandler) (user_exists : bool)
         (indices : list nat) (E : Errors) (tracker : MemoryTracker)
  : Py (Errors * MemoryTracker) :=
  match indices with
  | [] => ret (E, tracker)
  | i :: rest =>
      let E' := (handle_request_bad E handler (test_request user_exists i)).1 in
      tracker' <- (if (i mod 100 =? 0)%nat then record tracker else ret tracker) ;;
      run_test_loop handler user_exists rest E' tracker'
  end.

(** What [run_test] returns, [(data_file, plot_file)], together with what
    it leaves behind: the objects of [Errors], the tracker and the figure
    plotted. *)
Record TestRun : Type := mkTestRun {
  data_file : string;
  plot_file : string;
  test_errors : Errors;
  test_tracker : MemoryTracker;
  test_figure : Figure;
}.

(** The name under which [run_test] saves its data. *)
Definition data_file_name (user_exists : bool) : string :=
  "bad_implementation_memory_"
  +:+ (if user_exists then "success" else "error") +:+ ".csv".

(** The elapsed times a tracker with start time [st] can record under the
    clock [c]: the distance from the start time to some reading when the
    start time is set and true, and 0 otherwise. *)
Definition elapsed_reading (st : option Q) (c : nat -> Q) (e : Q) : Prop :=
  match st with
  | Some s => if float_truthy s then exists j, e = (c j - s)%Q else e = 0%Q
  | None => e = 0%Q
  end.

(** A clock that reads 0 next, or that stands still. *)
Definition clock_stalled (w : World) : Prop :=
  float_truthy (clock w (clock_reads w)) = false
  \/ forall j, (clock w j == clock w (clock_reads w))%Q.

(** [run_test] from its first line to the saving of the data: the objects
    of [Errors] as the requests leave them, the tracker, and the name of
    the file written. *)
Definition run_test_measure `{FloatText} (E : Errors) (num_requests : nat)
           (user_exists : bool) : Py (Errors * MemoryTracker * string) :=
  tracker <- start (MemoryTracker_init (Some "bad_implementation")) ;;
  let handler := RequestHandler_init in
  st <- run_test_loop handler user_exists (seq 0 num_requests) E tracker ;;
  tracker <- record st.2 ;;
  tracker <- stop tracker ;;
  data_file <- save_data tracker (Some (data_file_name user_exists)) ;;
  ret (st.1, tracker, data_file).

(** [run_test]: the measurement, then the plot of the tracker. *)
Definition run_test `{FloatText} (E : Errors) (num_requests : nat)
           (user_exists : bool) : Py TestRun :=
  m <- run_test_measure E num_requests user_exists ;;
  let kind := if user_exists then "success" else "error" in
  let plot_file := "bad_implementation_memory_" +:+ kind +:+ ".png" in
  figure <- lift (plot m.1.2
                    (Some ("Memory Usage with Singleton Exceptions - "
                           +:+ (if user_exists then "Successful" else "Error")
                           +:+ " Requests"))) ;;
  ret (mkTestRun m.2 plot_file m.1.1 m.1.2 figure).

(** A working directory whose singleton file names its columns
    [elapsed_seconds,metric_value]. *)
Definition renamed_columns_world : World :=
  mkWorld (clock demo_world) 0 (rss demo_world) 0 "20240101-000000"
    (<["bad_implementation_memory_error.csv" :=
         "elapsed_seconds,metric_value" +:+ newline
         +:+ "1000000e-6,2000000e-6" +:+ newline]>
     (<["good_implementation_memory_error.csv" :=
          "timestamp,memory_mb" +:+ newline
          +:+ "1000000e-6,2000000e-6" +:+ newline]>
      ∅)).

(** A world whose clock reads 0 at first and advances by one second per
    reading. *)
Definition epoch_world : World :=
  mkWorld (fun n => inject_Z (Z.of_nat n)) 0 (rss demo_world) 0
          "19700101-000000" ∅.

(** * Properties *)

(** ** The tracker *)

(** What one call of [_record_point] does: it always returns, appends one
    entry to each list, and leaves label and start time alone. *)
Lemma record_point_returns (self : MemoryTracker) (w : World) :
  exists e w',
    _record_point self w =
      Ok (mkTracker (label self) (timestamps self ++ [e])
                    (memory_usage self ++ [next_rss_mb w]) (start_time self), w')
    /\ (start_time self = None -> e = 0%Q)
    /\ files w' = files w.
Proof.
  unfold _record_point, bind, memory_info_rss, next_rss_mb.
  destruct (start_time self) as [s|]; simpl.
  - destruct (float_truthy s); simpl.
    + eexists _, _. split; [reflexivity|]. split; [discriminate|reflexivity].
    + eexists _, _. split; [reflexivity|]. split; [discriminate|reflexivity].
  - eexists _, _. split; [reflexivity|]. split; reflexivity.
Qed.

Lemma sample_count_snoc (l : string) (ts ms : list Q) (e m : Q) (st : option Q) :
  sample_count (mkTracker l (ts ++ [e]) (ms ++ [m]) st)
  = S (length (zip ts ms)).
Proof.
  unfold sample_count, samples; simpl.
  rewrite !length_zip_with, !length_app; simpl. lia.
Qed.

Lemma record_point_count (self : MemoryTracker) (w : World) :
  exists self' w',
    _record_point self w = Ok (self', w')
    /\ sample_count self' = S (sample_count self)
    /\ start_time self' = start_time self.
Proof.
  destruct (record_point_returns self w) as (e & w' & Hrun & _ & _).
  eexists _, _. split; [exact Hrun|]. split; [|reflexivity].
  apply sample_count_snoc.
Qed.

Lemma start_count (self : MemoryTracker) (w : World) :
  exists self' w', start self w = Ok (self', w') /\ sample_count self' = 1%nat.
Proof.
  unfold start, bind, time_time.
  match goal with
  | |- context [_record_point ?t ?w0] =>
      destruct (record_point_count t w0) as (t' & w' & Hrun & Hn & _)
  end.
  exists t', w'. split; [exact Hrun|]. rewrite Hn. reflexivity.
Qed.

Lemma record_times_count (k : nat) (self : MemoryTracker) (w : World) :
  exists self' w',
    record_times k self w = Ok (self', w')
    /\ sample_count self' = (sample_count self + k)%nat.
Proof.
  revert self w. induction k as [|k IH]; intros self w; simpl.
  - exists self, w. split; [reflexivity|lia].
  - unfold bind, record.
    destruct (record_point_count self w) as (t1 & w1 & Hrun & Hn & _).
    rewrite Hrun.
    destruct (IH t1 w1) as (t2 & w2 & Hrun2 & Hn2).
    exists t2, w2. split; [exact Hrun2|lia].
Qed.

Lemma record_times_lengths (k : nat) (self : MemoryTracker) (w : World) :
  exists self' w',
    record_times k self w = Ok (self', w')
    /\ length (timestamps self') = (length (timestamps self) + k)%nat
    /\ length (memory_usage self') = (length (memory_usage self) + k)%nat.
Proof.
  revert self w. induction k as [|k IH]; intros self w; simpl.
  - exists self, w. split; [reflexivity|lia].
  - unfold bind, record.
    destruct (record_point_returns self w) as (e & w1 & Hrun & _ & _).
    rewrite Hrun.
    match goal with
    | |- context [record_times k ?t w1] =>
        destruct (IH t w1) as (t2 & w2 & Hrun2 & Hts & Hms)
    end.
    exists t2, w2. split; [exact Hrun2|]. cbn in Hts, Hms.
    rewrite length_app in Hts, Hms. cbn in Hts, Hms. lia.
Qed.

(** [start()] in full: whatever the tracker held, it holds afterwards one
    elapsed time and one memory reading, those of this call, and the start
    time just read. *)
Lemma start_effect (self : MemoryTracker) (w : World) :
  exists e w',
    start self w
    = Ok (mkTracker (label self) [e] [next_rss_mb w]
                    (Some (clock w (clock_reads w))), w')
    /\ e = (if float_truthy (clock w (clock_reads w))
            then clock w (S (clock_reads w)) - clock w (clock_reads w)
            else 0)%Q.
Proof.
  unfold start, _record_point, bind, time_time, memory_info_rss, next_rss_mb.
  cbn. destruct (float_truthy (clock w (clock_reads w))); cbn;
    eexists _, _; split; reflexivity.
Qed.

(** C4: right after [start()] a tracker holds exactly one sample; [k] calls
    of [record()] later it holds [1 + k]; after [stop()] it holds [2 + k];
    each time both lists have that length.  Another [start()] discards
    every earlier sample: each list then holds one entry and no other, the
    elapsed time and the memory reading of that call. *)
Theorem C4_sample_counts (self : MemoryTracker) (w : World) (k : nat) :
  exists t1 w1 t2 w2 t3 w3 t4 w4 e4,
    start self w = Ok (t1, w1) /\ sample_count t1 = 1%nat
    /\ length (timestamps t1) = 1%nat /\ length (memory_usage t1) = 1%nat
    /\ record_times k t1 w1 = Ok (t2, w2) /\ sample_count t2 = (1 + k)%nat
    /\ length (timestamps t2) = (1 + k)%nat
    /\ length (memory_usage t2) = (1 + k)%nat
    /\ stop t2 w2 = Ok (t3, w3) /\ sample_count t3 = (2 + k)%nat
    /\ length (timestamps t3) = (2 + k)%nat
    /\ length (memory_usage t3) = (2 + k)%nat
    /\ start t3 w3 = Ok (t4, w4) /\ sample_count t4 = 1%nat
    /\ timestamps t4 = [e4]
    /\ memory_usage t4 = [next_rss_mb w3]
    /\ samples t4 = [(e4, next_rss_mb w3)]
    /\ start_time t4 = Some (clock w3 (clock_reads w3))
    /\ e4 = (if float_truthy (clock w3 (clock_reads w3))
             then clock w3 (S (clock_reads w3)) - clock w3 (clock_reads w3)
             else 0)%Q.
Proof.
  destruct (start_effect self w) as (e1 & w1 & H1 & _).
  match type of H1 with _ = Ok (?t, _) => set (t1 := t) in * end.
  destruct (record_times_lengths k t1 w1) as (t2 & w2 & H2 & T2 & M2).
  destruct (record_point_returns t2 w2) as (e3 & w3 & H3 & _ & _).
  match type of H3 with _ = Ok (?t, _) => set (t3 := t) in * end.
  destruct (start_effect t3 w3) as (e4 & w4 & H4 & E4).
  match type of H4 with _ = Ok (?t, _) => set (t4 := t) in * end.
  exists t1, w1, t2, w2, t3, w3, t4, w4, e4.
  assert (T2' : length (timestamps t2) = (1 + k)%nat)
    by (rewrite T2; reflexivity).
  assert (M2' : length (memory_usage t2) = (1 + k)%nat)
    by (rewrite M2; reflexivity).
  assert (T3 : length (timestamps t3) = (2 + k)%nat).
  { subst t3. cbn. rewrite length_app. cbn. lia. }
  assert (M3 : length (memory_usage t3) = (2 + k)%nat).
  { subst t3. cbn. rewrite length_app. cbn. lia. }
  split; [exact H1|]. split; [reflexivity|].
  split; [reflexivity|]. split; [reflexivity|].
  split; [exact H2|].
  split; [unfold sample_count, samples; rewrite length_zip_with; lia|].
  split; [lia|]. split; [lia|].
  split; [exact H3|].
  split; [unfold sample_count, samples; rewrite length_zip_with; lia|].
  split; [exact T3|]. split; [exact M3|].
  split; [exact H4|].
  repeat (split; [reflexivity|]). exact E4.
Qed.

(** C1 (as stated, refuted): [record()] on a tracker that was never started
    does not raise [StateError]; it returns and the tracker holds a sample. *)
Lemma C1_record_before_start_returns :
  exists t' w',
    record fresh_tracker demo_world = Ok (t', w')
    /\ sample_count t' = 1%nat
    /\ record fresh_tracker demo_world <> Raise (Exn "StateError").
Proof.
  eexists _, _. split; [cbn; reflexivity|]. split; [reflexivity|discriminate].
Qed.

(** C1 (amended): in every state of a tracker, never started, started or
    already stopped, [record()] and [stop()] return normally and append
    exactly one sample; in particular a second [stop()] succeeds as well. *)
Theorem C1_record_stop_always_return (self : MemoryTracker) (w : World) :
  (exists t' w',
      record self w = Ok (t', w')
      /\ sample_count t' = S (sample_count self))
  /\ (exists t1 w1 t2 w2,
         stop self w = Ok (t1, w1)
         /\ stop t1 w1 = Ok (t2, w2)
         /\ sample_count t2 = S (S (sample_count self))).
Proof.
  split.
  - destruct (record_point_count self w) as (t' & w' & Hrun & Hn & _).
    exists t', w'. split; assumption.
  - destruct (record_point_count self w) as (t1 & w1 & H1 & N1 & _).
    destruct (record_point_count t1 w1) as (t2 & w2 & H2 & N2 & _).
    exists t1, w1, t2, w2. unfold stop. repeat split; try assumption. lia.
Qed.

(** C2 (as stated, refuted): with 2097152 resident bytes the stored value
    is 2 (megabytes), not 2097152. *)
Lemma C2_stored_value_is_not_bytes :
  exists t' w' v,
    start fresh_tracker demo_world = Ok (t', w')
    /\ rss demo_world (rss_reads demo_world) = 2097152%N
    /\ last (memory_usage t') = Some v
    /\ (v == 2)%Q
    /\ ~ (v == inject_Z 2097152)%Q.
Proof.
  eexists _, _, _. split; [cbn; reflexivity|]. split; [reflexivity|].
  split; [reflexivity|]. split; [vm_compute; reflexivity|].
  intros H. vm_compute in H. discriminate H.
Qed.

Lemma next_rss_mb_scaled (w : World) :
  (next_rss_mb w * inject_Z 1048576 == inject_Z (Z.of_N (rss w (rss_reads w))))%Q.
Proof.
  unfold next_rss_mb, bytes_per_mb. change (1024 * 1024)%Z with 1048576%Z.
  field.
Qed.

Lemma stores_megabytes_record_point (self : MemoryTracker) (w : World) :
  exists t' w',
    _record_point self w = Ok (t', w')
    /\ last (memory_usage t') = Some (next_rss_mb w).
Proof.
  destruct (record_point_returns self w) as (e & w' & Hrun & _ & _).
  eexists _, _. split; [exact Hrun|]. simpl. apply last_snoc.
Qed.

(** C2 (amended): every sample that [start()], [record()] or [stop()]
    stores holds the resident memory in megabytes: the stored value times
    1048576 is the resident byte count read at that moment. *)
Theorem C2_stored_value_is_megabytes (self : MemoryTracker) (w : World) :
  let bytes := inject_Z (Z.of_N (rss w (rss_reads w))) in
  (exists t' w' v, start self w = Ok (t', w')
      /\ last (memory_usage t') = Some v /\ (v * inject_Z 1048576 == bytes)%Q)
  /\ (exists t' w' v, record self w = Ok (t', w')
      /\ last (memory_usage t') = Some v /\ (v * inject_Z 1048576 == bytes)%Q)
  /\ (exists t' w' v, stop self w = Ok (t', w')
      /\ last (memory_usage t') = Some v /\ (v * inject_Z 1048576 == bytes)%Q).
Proof.
  intros bytes. split; [|split].
  - unfold start, bind, time_time.
    match goal with
    | |- context [_record_point ?t ?w0] =>
        destruct (stores_megabytes_record_point t w0) as (t' & w' & Hrun & Hl)
    end.
    eexists t', w', _. split; [exact Hrun|]. split; [exact Hl|].
    apply (next_rss_mb_scaled
             (mkWorld (clock w) (S (clock_reads w)) (rss w) (rss_reads w)
                      (now_stamp w) (files w))).
  - destruct (stores_megabytes_record_point self w) as (t' & w' & Hrun & Hl).
    eexists t', w', _. split; [exact Hrun|]. split; [exact Hl|].
    apply next_rss_mb_scaled.
  - destruct (stores_megabytes_record_point self w) as (t' & w' & Hrun & Hl).
    eexists t', w', _. split; [exact Hrun|]. split; [exact Hl|].
    apply next_rss_mb_scaled.
Qed.

Lemma record_times_unstarted (k : nat) (self : MemoryTracker) (w : World) :
  start_time self = None ->
  exists t' w',
    record_times k self w = Ok (t', w')
    /\ timestamps t' = timestamps self ++ replicate k 0%Q
    /\ length (memory_usage t') = (length (memory_usage self) + k)%nat
    /\ start_time t' = None.
Proof.
  revert self w. induction k as [|k IH]; intros self w Hst; simpl.
  - exists self, w. rewrite app_nil_r. repeat split; [lia|assumption].
  - unfold bind, record.
    destruct (record_point_returns self w) as (e & w1 & Hrun & He & _).
    rewrite Hrun, (He Hst).
    match goal with
    | |- context [record_times k ?t w1] =>
        destruct (IH t w1 Hst) as (t2 & w2 & Hrun2 & Hts & Hms & Hst2)
    end.
    exists t2, w2. split; [exact Hrun2|]. simpl in Hts, Hms.
    split; [|split; [|assumption]].
    + rewrite Hts, <- app_assoc. reflexivity.
    + rewrite Hms, length_app. simpl. lia.
Qed.

(** C10: on a tracker that was never started, [record()] does not raise;
    each call appends a sample whose elapsed time is 0, so after [k] calls
    the tracker holds [k] samples, all at time 0, and still has no start
    time. *)
Theorem C10_record_without_start (lbl : option string) (w : World) (k : nat) :
  exists t' w',
    record_times k (MemoryTracker_init lbl) w = Ok (t', w')
    /\ timestamps t' = replicate k 0%Q
    /\ sample_count t' = k
    /\ start_time t' = None.
Proof.
  destruct (record_times_unstarted k (MemoryTracker_init lbl) w eq_refl)
    as (t' & w' & Hrun & Hts & Hms & Hst).
  exists t', w'. split; [exact Hrun|]. simpl in Hts, Hms.
  split; [exact Hts|]. split; [|exact Hst].
  unfold sample_count, samples. rewrite length_zip_with, Hts, length_replicate, Hms.
  lia.
Qed.

(** ** The trend line *)

Lemma Qsum_cons (v : Q) (l : list Q) : Qsum (v :: l) = (v + Qsum l)%Q.
Proof. reflexivity. Qed.

Lemma Qlen_cons {A} (v : A) (l : list A) : (Qlen (v :: l) == Qlen l + 1)%Q.
Proof.
  unfold Qlen. simpl length. rewrite Nat2Z.inj_succ, <- Z.add_1_r.
  rewrite inject_Z_plus. reflexivity.
Qed.

Lemma Qsq_nonneg (z : Q) : (0 <= z * z)%Q.
Proof. nra. Qed.

Lemma Qsq_zero (z : Q) : (z * z == 0)%Q -> (z == 0)%Q.
Proof. intros H. nra. Qed.

Lemma Qlen_nonneg {A} (l : list A) : (0 <= Qlen l)%Q.
Proof.
  unfold Qlen. change 0%Q with (inject_Z 0). rewrite <- Zle_Qle. lia.
Qed.

Lemma Qsum_nonneg (l : list Q) : Forall (fun v => 0 <= v)%Q l -> (0 <= Qsum l)%Q.
Proof.
  induction 1 as [|v l Hv _ IH].
  - apply Qle_refl.
  - rewrite Qsum_cons. lra.
Qed.

Lemma Qsum_zero (l : list Q) :
  Forall (fun v => 0 <= v)%Q l -> (Qsum l == 0)%Q -> Forall (fun v => v == 0)%Q l.
Proof.
  induction 1 as [|v l Hv Hl IH]; intros Hz; constructor.
  - rewrite Qsum_cons in Hz. pose proof (Qsum_nonneg l Hl). lra.
  - apply IH. rewrite Qsum_cons in Hz. pose proof (Qsum_nonneg l Hl). lra.
Qed.

(** The squared error in terms of the moments of the points. *)
Lemma sq_error_moments (x y : list Q) (a b : Q) :
  length x = length y ->
  (sq_error x y a b ==
     Qsum (zip_with Qmult y y) - 2 * a * Qsum (zip_with Qmult x y)
     - 2 * b * Qsum y + a * a * Qsum (zip_with Qmult x x)
     + 2 * a * b * Qsum x + b * b * Qlen x)%Q.
Proof.
  revert y. induction x as [|t x IH]; intros [|v y] Hlen; try discriminate.
  - unfold sq_error, Qlen. simpl. ring.
  - injection Hlen as Hlen. specialize (IH y Hlen).
    unfold sq_error in *. cbn [zip_with]. rewrite !Qsum_cons, Qlen_cons, IH.
    ring.
Qed.

(** The quadratic form of the moments is a sum of squares. *)
Lemma moments_form_nonneg (x : list Q) (da db : Q) :
  (0 <= da * da * Qsum (zip_with Qmult x x) + 2 * da * db * Qsum x
        + db * db * Qlen x)%Q.
Proof.
  assert (Heq : (da * da * Qsum (zip_with Qmult x x) + 2 * da * db * Qsum x
                 + db * db * Qlen x
                 == Qsum (map (fun t => (da * t + db) * (da * t + db)) x))%Q).
  { induction x as [|t x IH].
    - unfold Qlen. simpl. ring.
    - cbn [zip_with map]. rewrite !Qsum_cons, Qlen_cons, <- IH. ring. }
  rewrite Heq. apply Qsum_nonneg. apply Forall_forall. intros v Hv.
  apply list_elem_of_fmap in Hv as (t & -> & _).
  apply Qsq_nonneg.
Qed.

Lemma sq_dev_nonneg (c : Q) (x : list Q) : (0 <= sq_dev c x)%Q.
Proof.
  apply Qsum_nonneg, Forall_forall. intros v Hv.
  apply list_elem_of_fmap in Hv as (t & -> & _). apply Qsq_nonneg.
Qed.

Lemma fit_det_cons (c : Q) (x : list Q) :
  (fit_det (c :: x) == fit_det x + sq_dev c x)%Q.
Proof.
  assert (Hdev : (sq_dev c x ==
                  Qlen x * (c * c) - 2 * c * Qsum x + Qsum (zip_with Qmult x x))%Q).
  { unfold sq_dev. induction x as [|t x IH].
    - unfold Qlen. simpl. ring.
    - cbn [zip_with map]. rewrite !Qsum_cons, Qlen_cons, IH. ring. }
  unfold fit_det. cbn [zip_with]. rewrite !Qsum_cons, Qlen_cons, Hdev. ring.
Qed.

Lemma fit_det_nonneg (x : list Q) : (0 <= fit_det x)%Q.
Proof.
  induction x as [|c x IH].
  - unfold fit_det, Qlen. simpl. lra.
  - rewrite fit_det_cons. pose proof (sq_dev_nonneg c x). lra.
Qed.

Lemma fit_det_zero_constant (c : Q) (x : list Q) :
  (fit_det (c :: x) == 0)%Q -> Forall (fun v => v == c)%Q x.
Proof.
  rewrite fit_det_cons. intros Hz.
  pose proof (fit_det_nonneg x). pose proof (sq_dev_nonneg c x).
  assert (Hd : (sq_dev c x == 0)%Q) by lra.
  unfold sq_dev in Hd. apply Qsum_zero in Hd.
  - rewrite Forall_fmap in Hd. eapply Forall_impl; [exact Hd|].
    intros v Hv. simpl in Hv. nra.
  - apply Forall_forall. intros v Hv.
    apply list_elem_of_fmap in Hv as (t & -> & _). apply Qsq_nonneg.
Qed.

(** Two distinct abscissae make the normal equations regular. *)
Lemma fit_det_distinct (x : list Q) (u v : Q) :
  u ∈ x -> v ∈ x -> ~ (u == v)%Q -> ~ (fit_det x == 0)%Q.
Proof.
  intros Hu Hv Hne Hz. destruct x as [|c x]; [inversion Hu|].
  pose proof (fit_det_zero_constant c x Hz) as Hall.
  rewrite Forall_forall in Hall.
  assert (Hc : forall t, t ∈ c :: x -> (t == c)%Q).
  { intros t Ht. apply elem_of_cons in Ht as [->|Ht]; [reflexivity|auto]. }
  apply Hne. rewrite (Hc u Hu), (Hc v Hv). reflexivity.
Qed.

(** The solution of the normal equations minimises the squared error, in
    terms of the moments alone. *)
Lemma normal_equations_minimise (n sx sy sxx sxy syy a' b' : Q) :
  let d := (n * sxx - sx * sx)%Q in
  let a := ((n * sxy - sx * sy) / d)%Q in
  let b := ((sy * sxx - sx * sxy) / d)%Q in
  ~ (d == 0)%Q ->
  (0 <= (a' - a) * (a' - a) * sxx + 2 * (a' - a) * (b' - b) * sx
        + (b' - b) * (b' - b) * n)%Q ->
  (syy - 2 * a * sxy - 2 * b * sy + a * a * sxx + 2 * a * b * sx + b * b * n
   <= syy - 2 * a' * sxy - 2 * b' * sy + a' * a' * sxx + 2 * a' * b' * sx
      + b' * b' * n)%Q.
Proof.
  intros d a b Hd Hform.
  assert (N1 : (a * sxx + b * sx - sxy == 0)%Q).
  { subst a b d. field. exact Hd. }
  assert (N2 : (a * sx + b * n - sy == 0)%Q).
  { subst a b d. field. exact Hd. }
  clearbody a b. clear Hd d.
  assert (Hgap :
    ((syy - 2 * a' * sxy - 2 * b' * sy + a' * a' * sxx + 2 * a' * b' * sx
      + b' * b' * n)
     - (syy - 2 * a * sxy - 2 * b * sy + a * a * sxx + 2 * a * b * sx
        + b * b * n)
     == ((a' - a) * (a' - a) * sxx + 2 * (a' - a) * (b' - b) * sx
         + (b' - b) * (b' - b) * n)
        + 2 * (a' - a) * (a * sxx + b * sx - sxy)
        + 2 * (b' - b) * (a * sx + b * n - sy))%Q) by ring.
  rewrite N1, N2 in Hgap. lra.
Qed.

Lemma all_zero_sums (x : list Q) :
  all_zero x = true ->
  (Qsum x == 0)%Q /\ (Qsum (zip_with Qmult x x) == 0)%Q.
Proof.
  induction x as [|t x IH]; intros H.
  - split; reflexivity.
  - cbn [all_zero forallb] in H. apply andb_true_iff in H as [Ht Hx].
    apply Qeq_bool_iff in Ht. destruct (IH Hx) as [H1 H2].
    cbn [zip_with]. rewrite !Qsum_cons, H1, H2, Ht. split; ring.
Qed.

(** Abscissae that are all zero do not determine a line. *)
Lemma all_zero_det (x : list Q) : all_zero x = true -> (fit_det x == 0)%Q.
Proof.
  intros H. destruct (all_zero_sums x H) as [H1 H2].
  unfold fit_det. rewrite H1, H2. ring.
Qed.

Lemma polyfit1_least_squares (x y : list Q) :
  length x = length y ->
  ~ (fit_det x == 0)%Q ->
  exists a b,
    polyfit1 x y = Ok (FitLine a b)
    /\ forall a' b', (sq_error x y a b <= sq_error x y a' b')%Q.
Proof.
  intros Hlen Hd. unfold polyfit1.
  destruct x as [|t x].
  { exfalso. apply Hd. unfold fit_det, Qlen. simpl. reflexivity. }
  replace (length (t :: x) =? length y)%nat with true
    by (symmetry; apply Nat.eqb_eq; exact Hlen).
  cbn [negb].
  destruct (all_zero (t :: x)) eqn:Ez.
  { exfalso. apply Hd, all_zero_det, Ez. }
  cbv zeta.
  destruct (Qeq_bool (fit_det (t :: x)) 0) eqn:E.
  { apply Qeq_bool_iff in E. contradiction. }
  eexists _, _. split; [reflexivity|]. intros a' b'.
  rewrite !sq_error_moments by exact Hlen.
  apply normal_equations_minimise.
  - exact Hd.
  - apply moments_form_nonneg.
Qed.

(** C7 (as stated, refuted): for a tracker that holds one sample, [plot]
    fits no trend at all; there is no result with slope 0. *)
Lemma C7_one_sample_has_no_trend :
  exists fig,
    sample_count single_tracker = 1%nat
    /\ plot single_tracker None = Ok fig
    /\ fig_trend fig = None
    /\ forall v l, fig_trend fig <> Some (FitLine 0 v, l).
Proof.
  eexists. split; [reflexivity|]. split; [reflexivity|].
  split; [reflexivity|]. intros v l. discriminate.
Qed.

(** C7 (amended): for a series of fewer than two samples the trend step is
    skipped: [plot] returns normally with a figure that carries no trend (no
    slope, intercept or sample count is produced), and nothing is raised. *)
Theorem C7_short_series_no_trend (self : MemoryTracker) (title : option string) :
  length (timestamps self) = length (memory_usage self) ->
  sample_count self < 2 ->
  exists fig,
    plot self title = Ok fig
    /\ fig_curve fig = samples self
    /\ fig_trend fig = None.
Proof.
  intros Hlen Hn. unfold plot, trend_line.
  rewrite Hlen, Nat.eqb_refl. cbn [negb].
  unfold sample_count, samples in Hn. rewrite length_zip_with, <- Hlen in Hn.
  destruct (1 <? length (memory_usage self))%nat eqn:E.
  { apply Nat.ltb_lt in E. lia. }
  eexists. split; [reflexivity|]. split; reflexivity.
Qed.

Lemma C7_short_series_no_trend_witness :
  exists fig,
    plot single_tracker None = Ok fig
    /\ fig_curve fig = samples single_tracker
    /\ fig_trend fig = None.
Proof.
  apply (C7_short_series_no_trend single_tracker None).
  - reflexivity.
  - unfold sample_count. simpl. lia.
Defined.

Lemma two_distinct_length (x : list Q) (u v : Q) :
  u ∈ x -> v ∈ x -> ~ (u == v)%Q -> 1 < length x.
Proof.
  intros Hu Hv Hne. destruct x as [|c [|c' x]]; simpl; try lia.
  - inversion Hu.
  - apply list_elem_of_singleton in Hu, Hv. subst. exfalso. apply Hne. reflexivity.
Qed.

(** C8: when the timestamps take at least two distinct values, the trend
    that [plot] draws is the least-squares line over all samples: no other
    line has a smaller sum of squared residuals.  For the samples
    (0,100), (1,110), (2,120), (3,130) the slope is 10 within 1e-6. *)
Theorem C8_trend_is_least_squares :
  (forall (self : MemoryTracker) (title : option string) (u v : Q),
      length (timestamps self) = length (memory_usage self) ->
      u ∈ timestamps self -> v ∈ timestamps self -> ~ (u == v)%Q ->
      exists fig a b,
        plot self title = Ok fig
        /\ fig_trend fig
           = Some (FitLine a b, map (fun t => a * t + b)%Q (timestamps self))
        /\ forall a' b',
            (sq_error (timestamps self) (memory_usage self) a b
             <= sq_error (timestamps self) (memory_usage self) a' b')%Q)
  /\ (exists fig a b l,
         samples line_tracker = line_series
         /\ plot line_tracker None = Ok fig
         /\ fig_trend fig = Some (FitLine a b, l)
         /\ (Qabs (a - 10) <= 1 # 1000000)%Q).
Proof.
  split.
  - intros self title u v Hlen Hu Hv Hne.
    pose proof (two_distinct_length _ u v Hu Hv Hne) as Hn.
    pose proof (fit_det_distinct _ u v Hu Hv Hne) as Hd.
    destruct (polyfit1_least_squares _ _ Hlen Hd) as (a & b & Hfit & Hmin).
    unfold plot, trend_line.
    replace (length (timestamps self) =? length (memory_usage self))%nat
      with true by (symmetry; apply Nat.eqb_eq; exact Hlen).
    cbn [negb].
    replace (1 <? length (timestamps self))%nat with true
      by (symmetry; apply Nat.ltb_lt; exact Hn).
    rewrite Hfit. eexists _, a, b. split; [reflexivity|].
    split; [reflexivity|exact Hmin].
  - eexists _, _, _, _. split; [reflexivity|]. split; [reflexivity|].
    split; [reflexivity|]. vm_compute. discriminate.
Qed.

(** ** Comparing two series *)

(** The two outcomes of a fit on aligned, non-empty columns. *)
Lemma polyfit1_outcome (x y : list Q) :
  length x = length y -> 0 < length x ->
  if all_zero x then polyfit1 x y = Raise LinAlgError
  else exists z, polyfit1 x y = Ok z.
Proof.
  intros Hlen Hpos. unfold polyfit1.
  destruct x as [|t x]; [simpl in Hpos; lia|].
  replace (length (t :: x) =? length y)%nat with true
    by (symmetry; apply Nat.eqb_eq; exact Hlen).
  cbn [negb]. destruct (all_zero (t :: x)); [reflexivity|].
  cbv zeta. destruct (Qeq_bool (fit_det (t :: x)) 0); eexists; reflexivity.
Qed.

Lemma frame_trend_outcome (df : DataFrame) (ycol : string) (x y : list Q) :
  df_getitem df "timestamp" = Ok x ->
  df_getitem df ycol = Ok y ->
  df_len df = length x ->
  length x = length y ->
  if trend_fails x then frame_trend df ycol = Raise LinAlgError
  else exists tr, frame_trend df ycol = Ok tr.
Proof.
  intros Hx Hy Hn Hlen. unfold frame_trend, trend_fails. rewrite Hn.
  destruct (1 <? length x)%nat eqn:E; cbn [andb]; [|eexists; reflexivity].
  apply Nat.ltb_lt in E. rewrite Hx, Hy. cbn [rbind].
  pose proof (polyfit1_outcome x y Hlen ltac:(lia)) as Hfit.
  destruct (all_zero x).
  - rewrite Hfit. reflexivity.
  - destruct Hfit as (z & ->). cbn [rbind]. eexists; reflexivity.
Qed.

Lemma iloc_first (v : Q) (l : list Q) : iloc (v :: l) 0 = Ok v.
Proof.
  unfold iloc. cbn [Z.ltb Z.compare].
  replace (0 <? 0)%Z with false by reflexivity.
  replace (Z.of_nat (length (v :: l)) <=? 0)%Z with false
    by (symmetry; apply Z.leb_gt; simpl length; lia).
  reflexivity.
Qed.

Lemma iloc_last (l : list Q) (v : Q) : last l = Some v -> iloc l (-1) = Ok v.
Proof.
  intros Hl. unfold iloc.
  assert (Hpos : 0 < length l) by (destruct l; [discriminate|simpl; lia]).
  replace (-1 <? 0)%Z with true by reflexivity.
  replace (Z.of_nat (length l) + -1 <? 0)%Z with false
    by (symmetry; apply Z.ltb_ge; lia).
  replace (Z.of_nat (length l) <=? Z.of_nat (length l) + -1)%Z with false
    by (symmetry; apply Z.leb_gt; lia).
  cbn [orb].
  replace (Z.to_nat (Z.of_nat (length l) + -1)) with (pred (length l)) by lia.
  rewrite <- last_lookup, Hl. reflexivity.
Qed.

Lemma iloc_empty (i : Z) : iloc [] i = Raise IndexError.
Proof.
  unfold iloc. simpl length. change (Z.of_nat 0) with 0%Z.
  destruct (i <? 0)%Z eqn:E.
  - replace (0 + i <? 0)%Z with true by (symmetry; apply Z.ltb_lt; lia).
    reflexivity.
  - replace (0 <=? i)%Z with true
      by (symmetry; apply Z.leb_le; apply Z.ltb_ge in E; lia).
    rewrite orb_true_r. reflexivity.
Qed.

Lemma series_frame_trend (s : list (Q * Q)) :
  if trend_fails s.*1
  then frame_trend (series_frame s) "memory_mb" = Raise LinAlgError
  else exists tr, frame_trend (series_frame s) "memory_mb" = Ok tr.
Proof.
  apply (frame_trend_outcome _ _ s.*1 s.*2); try reflexivity.
  all: simpl; rewrite ?length_fmap; reflexivity.
Qed.

Lemma normalized_frame_trend (s : list (Q * Q)) (m0 : Q) :
  if trend_fails s.*1
  then frame_trend (df_setitem (series_frame s) "normalized_mb"
                      (map (fun v => v - m0)%Q s.*2)) "normalized_mb"
       = Raise LinAlgError
  else exists tr,
      frame_trend (df_setitem (series_frame s) "normalized_mb"
                     (map (fun v => v - m0)%Q s.*2)) "normalized_mb" = Ok tr.
Proof.
  apply (frame_trend_outcome _ _ s.*1 (map (fun v => v - m0)%Q s.*2));
    try reflexivity.
  all: simpl; rewrite ?length_fmap; reflexivity.
Qed.

Lemma iloc_head (l : list Q) (v : Q) : head l = Some v -> iloc l 0 = Ok v.
Proof.
  destruct l as [|c l]; [discriminate|]. intros [= ->]. apply iloc_first.
Qed.

Lemma getitem_timestamp (s : list (Q * Q)) :
  df_getitem (series_frame s) "timestamp" = Ok s.*1.
Proof. reflexivity. Qed.

Lemma getitem_memory (s : list (Q * Q)) :
  df_getitem (series_frame s) "memory_mb" = Ok s.*2.
Proof. reflexivity. Qed.

Lemma getitem_normalized_timestamp (s : list (Q * Q)) (vals : list Q) :
  df_getitem (df_setitem (series_frame s) "normalized_mb" vals) "timestamp"
  = Ok s.*1.
Proof. reflexivity. Qed.

Lemma getitem_normalized (s : list (Q * Q)) (vals : list Q) :
  df_getitem (df_setitem (series_frame s) "normalized_mb" vals) "normalized_mb"
  = Ok vals.
Proof. reflexivity. Qed.

Section Compare.
Context {FT : FloatText}.

(** What [compare_frames] computes on two non-empty series whose trend
    steps do not fail. *)
Lemma compare_frames_series (a b : list (Q * Q)) (m0 fa n0 fb : Q) :
  head a.*2 = Some m0 -> last a.*2 = Some fa ->
  head b.*2 = Some n0 -> last b.*2 = Some fb ->
  trend_fails a.*1 = false -> trend_fails b.*1 = false ->
  exists t1 t2 t3 t4,
    compare_frames (series_frame a) (series_frame b)
    = Ok (mkReport m0 fa (fa - m0) n0 fb (fb - n0)
                   ((fa - m0) - (fb - n0))
                   (stats_block "Bad" m0 fa (fa - m0)
                    +:+ stats_block "Good" n0 fb (fb - n0)
                    +:+ "Difference: "
                    +:+ float_fmt2 ((fa - m0) - (fb - n0)) +:+ " MB")
                   t1 t2
                   (map (fun v => v - m0)%Q a.*2)
                   (map (fun v => v - n0)%Q b.*2) t3 t4).
Proof.
  intros Ha Hla Hb Hlb Hta Htb.
  pose proof (series_frame_trend a) as Ht1. rewrite Hta in Ht1.
  pose proof (series_frame_trend b) as Ht2. rewrite Htb in Ht2.
  pose proof (normalized_frame_trend a m0) as Ht3. rewrite Hta in Ht3.
  pose proof (normalized_frame_trend b n0) as Ht4. rewrite Htb in Ht4.
  destruct Ht1 as (t1 & Ht1). destruct Ht2 as (t2 & Ht2).
  destruct Ht3 as (t3 & Ht3). destruct Ht4 as (t4 & Ht4).
  unfold compare_frames. cbv zeta.
  rewrite !getitem_timestamp, !getitem_memory. cbn [rbind].
  rewrite Ht1, Ht2. cbn [rbind].
  rewrite (iloc_head _ _ Ha), (iloc_last _ _ Hla),
    (iloc_head _ _ Hb), (iloc_last _ _ Hlb). cbn [rbind].
  rewrite !getitem_normalized_timestamp, !getitem_normalized. cbn [rbind].
  rewrite Ht3, Ht4. cbn [rbind].
  eexists t1, t2, t3, t4. reflexivity.
Qed.

(** A trend step that fails ends the comparison: the fits of the first
    figure come before every other computation on the values. *)
Lemma compare_frames_trend_fails (a b : list (Q * Q)) :
  trend_fails a.*1 = true \/ trend_fails b.*1 = true ->
  compare_frames (series_frame a) (series_frame b) = Raise LinAlgError.
Proof.
  intros Hab.
  pose proof (series_frame_trend a) as Ht1.
  pose proof (series_frame_trend b) as Ht2.
  unfold compare_frames. cbv zeta.
  rewrite !getitem_timestamp, !getitem_memory. cbn [rbind].
  destruct (trend_fails a.*1).
  - rewrite Ht1. reflexivity.
  - destruct Ht1 as (t1 & ->). cbn [rbind].
    destruct Hab as [Hab|Hab]; [discriminate|].
    rewrite Hab in Ht2. rewrite Ht2. reflexivity.
Qed.

Lemma compare_frames_empty (a b : list (Q * Q)) :
  a = [] \/ b = [] ->
  trend_fails a.*1 = false -> trend_fails b.*1 = false ->
  compare_frames (series_frame a) (series_frame b) = Raise IndexError.
Proof.
  intros Hab Hta Htb.
  pose proof (series_frame_trend a) as Ht1. rewrite Hta in Ht1.
  pose proof (series_frame_trend b) as Ht2. rewrite Htb in Ht2.
  destruct Ht1 as (t1 & Ht1). destruct Ht2 as (t2 & Ht2).
  unfold compare_frames. cbv zeta.
  rewrite !getitem_timestamp, !getitem_memory. cbn [rbind].
  rewrite Ht1, Ht2. cbn [rbind].
  destruct a as [|[t m] a].
  - cbn [fmap list_fmap]. rewrite iloc_empty. reflexivity.
  - destruct Hab as [Hab | ->]; [discriminate|].
    cbn [fmap list_fmap snd]. rewrite iloc_first. cbn [rbind].
    destruct (last (m :: a.*2)) as [v|] eqn:E.
    + rewrite (iloc_last _ _ E). cbn [rbind]. rewrite iloc_empty. reflexivity.
    + apply last_None in E. discriminate.
Qed.

(** C9 (amended): when either series has no sample, the comparison never
    produces a report and substitutes no default value: it raises.  Unless
    the trend step of the other series fails first, the exception is
    [IndexError], from reading the first value of the empty series. *)
Theorem C9_empty_series_raises_IndexError (a b : list (Q * Q)) :
  a = [] \/ b = [] ->
  (forall r, compare_frames (series_frame a) (series_frame b) <> Ok r)
  /\ (trend_fails a.*1 = false -> trend_fails b.*1 = false ->
      compare_frames (series_frame a) (series_frame b) = Raise IndexError).
Proof.
  intros Hab. split; [|apply compare_frames_empty; exact Hab].
  intros r.
  destruct (trend_fails a.*1) eqn:Hta.
  { rewrite compare_frames_trend_fails by (left; exact Hta). discriminate. }
  destruct (trend_fails b.*1) eqn:Htb.
  { rewrite compare_frames_trend_fails by (right; exact Htb). discriminate. }
  rewrite (compare_frames_empty a b Hab Hta Htb). discriminate.
Qed.
End Compare.

(** C9 (as stated, refuted): with an empty first series the comparison
    raises [IndexError], which is not [InsufficientDataError]. *)
Lemma C9_empty_series_error_class :
  @compare_frames micro_text (series_frame []) (series_frame line_series)
  = Raise (Exn "IndexError")
  /\ @compare_frames micro_text (series_frame []) (series_frame line_series)
     <> Raise (Exn "InsufficientDataError")
  /\ files empty_run_world !! "bad_implementation_memory_error.csv"
     = Some ("timestamp,memory_mb" +:+ newline)
  /\ @compare_implementations micro_text empty_run_world
     = Some (Raise (Exn "IndexError")).
Proof.
  split; [reflexivity|]. split; [intros H; discriminate H|].
  split; vm_compute; reflexivity.
Qed.

(** The comparison of a run with itself, through the saved files. *)
Example twin_run_difference :
  exists d,
    reported_difference (@compare_implementations micro_text twin_run_world)
    = Some d
    /\ (d == 0)%Q.
Proof.
  eexists. split; [vm_compute; reflexivity|]. reflexivity.
Qed.

(** Series A (0,0), (10,50) against series B (0,0), (10,5): growths 50 and
    5, difference 45. *)
Example growth_example :
  exists r,
    @compare_frames micro_text (series_frame [(0, 0); (10, 50)]%Q)
                    (series_frame [(0, 0); (10, 5)]%Q) = Ok r
    /\ bad_growth r = 50%Q /\ good_growth r = 5%Q
    /\ growth_difference r = 45%Q.
Proof.
  eexists. split; [vm_compute; reflexivity|]. repeat split.
Qed.

Lemma C9_empty_series_raises_IndexError_witness :
  @compare_frames micro_text (series_frame []) (series_frame line_series)
  = Raise IndexError.
Proof.
  apply (@C9_empty_series_raises_IndexError micro_text [] line_series).
  - left. reflexivity.
  - reflexivity.
  - reflexivity.
Defined.

(** C6 (defect of the code): a tracker on which [record()] was called twice
    and [start()] never holds two samples, both at elapsed time 0.  For two
    such series, non-empty and identical, the claim has a growth of 1 for
    each and a difference of 0; the code raises [LinAlgError] in the trend
    step of the first figure and reports no growth at all, on the frames
    and through the saved files alike. *)
Theorem C6_zero_times_raise_LinAlgError :
  timestamps unstarted_tracker = [0; 0]%Q
  /\ sample_count unstarted_tracker = 2%nat
  /\ @compare_frames micro_text (series_frame (samples unstarted_tracker))
                     (series_frame (samples unstarted_tracker))
     = Raise LinAlgError
  /\ @read_csv micro_text "bad_implementation_memory_error.csv"
               unstarted_run_world
     = Some (Ok (series_frame [(0 / million, inject_Z 2000000 / million);
                               (0 / million, inject_Z 3000000 / million)]%Q))
  /\ @compare_implementations micro_text unstarted_run_world
     = Some (Raise LinAlgError).
Proof.
  split; [reflexivity|]. split; [reflexivity|].
  split; [vm_compute; reflexivity|].
  split; vm_compute; reflexivity.
Qed.

(** ** Text of a saved series *)

Lemma append_cons (c : ascii) (a b : string) :
  String c a +:+ b = String c (a +:+ b).
Proof. reflexivity. Qed.

Lemma append_empty (b : string) : EmptyString +:+ b = b.
Proof. reflexivity. Qed.

Lemma newline_app (b : string) : newline +:+ b = String newline_char b.
Proof. reflexivity. Qed.

Lemma has_char_app (c : ascii) (a b : string) :
  has_char c (a +:+ b) = has_char c a || has_char c b.
Proof.
  induction a as [|x a IH]; [reflexivity|].
  rewrite append_cons. cbn [has_char]. rewrite IH, orb_assoc. reflexivity.
Qed.

Lemma split_on_plain (sep : ascii) (s : string) :
  has_char sep s = false -> split_on sep s = [s].
Proof.
  induction s as [|c s IH]; [reflexivity|].
  cbn [has_char split_on]. intros H. apply orb_false_iff in H as [Hc Hs].
  rewrite Hc, (IH Hs). reflexivity.
Qed.

Lemma split_on_app (sep : ascii) (a b : string) :
  has_char sep a = false ->
  split_on sep (a +:+ String sep b) = a :: split_on sep b.
Proof.
  induction a as [|c a IH]; intros H.
  - rewrite append_empty. cbn [split_on]. rewrite Ascii.eqb_refl. reflexivity.
  - cbn [has_char] in H. apply orb_false_iff in H as [Hc Ha].
    rewrite append_cons. cbn [split_on]. rewrite Hc, (IH Ha). reflexivity.
Qed.

(** Lines without a newline are recovered from their text. *)
Lemma split_unlines (lines : list string) :
  Forall (fun l => has_char newline_char l = false) lines ->
  split_on newline_char (unlines lines) = lines ++ [EmptyString].
Proof.
  induction 1 as [|l lines Hl _ IH]; [reflexivity|].
  cbn [unlines foldr]. unfold newline at 1.
  rewrite append_cons, append_empty.
  change (foldr (fun l rest => l +:+ newline +:+ rest) EmptyString lines)
    with (unlines lines).
  rewrite (split_on_app _ _ _ Hl), IH. reflexivity.
Qed.

Lemma filter_nonblank_all (lines : list string) :
  Forall (fun l => l <> EmptyString) lines ->
  filter (fun l => Is_true (nonblank l)) lines = lines.
Proof.
  induction 1 as [|l lines Hl _ IH]; [reflexivity|].
  rewrite filter_cons_True, IH; [reflexivity|].
  unfold nonblank. destruct (String.eqb_spec l EmptyString); [contradiction|exact I].
Qed.

Lemma nonblank_lines (lines : list string) :
  Forall (fun l => has_char newline_char l = false) lines ->
  Forall (fun l => l <> EmptyString) lines ->
  filter (fun l => Is_true (nonblank l)) (split_on newline_char (unlines lines))
  = lines.
Proof.
  intros Hnl Hne. rewrite (split_unlines _ Hnl), filter_app.
  rewrite (filter_nonblank_all _ Hne). cbn. apply app_nil_r.
Qed.

(** A blank line holds neither a comma nor a quote. *)
Lemma blank_line_has_char (c : ascii) (s : string) :
  Ascii.eqb space_char c = false -> Ascii.eqb tab_char c = false ->
  has_char c s = true -> blank_line s = false.
Proof.
  intros Hs Ht. induction s as [|a s IH]; [discriminate|].
  cbn [has_char blank_line]. intros H.
  destruct (Ascii.eqb_spec a c) as [->|Hac].
  - rewrite Ascii.eqb_sym, Hs, Ascii.eqb_sym, Ht. reflexivity.
  - cbn [orb] in H. rewrite (IH H). apply andb_false_r.
Qed.

Lemma filter_unblank_all (lines : list string) :
  Forall (fun l => blank_line l = false) lines ->
  filter (fun l => Is_true (negb (blank_line l))) lines = lines.
Proof.
  induction 1 as [|l lines Hl _ IH]; [reflexivity|].
  rewrite filter_cons_True, IH; [reflexivity|]. rewrite Hl. exact I.
Qed.

Lemma unblank_lines (lines : list string) :
  Forall (fun l => has_char newline_char l = false) lines ->
  Forall (fun l => blank_line l = false) lines ->
  filter (fun l => Is_true (negb (blank_line l)))
         (split_on newline_char (unlines lines))
  = lines.
Proof.
  intros Hnl Hne. rewrite (split_unlines _ Hnl), filter_app.
  rewrite (filter_unblank_all _ Hne). cbn. apply app_nil_r.
Qed.

(** A text without carriage returns has the line ends it shows. *)
Lemma crlf_to_lf_plain (s : string) :
  has_char carriage_char s = false -> crlf_to_lf s = Some s.
Proof.
  induction s as [|c s IH]; [reflexivity|].
  cbn [has_char crlf_to_lf]. intros H. apply orb_false_iff in H as [Hc Hs].
  rewrite Hc, (IH Hs). reflexivity.
Qed.

Lemma has_char_unlines (c : ascii) (lines : list string) :
  Ascii.eqb newline_char c = false ->
  Forall (fun l => has_char c l = false) lines ->
  has_char c (unlines lines) = false.
Proof.
  intros Hc. induction 1 as [|l lines Hl _ IH]; [reflexivity|].
  cbn [unlines foldr]. rewrite !has_char_app, Hl.
  change (foldr (fun l rest => l +:+ newline +:+ rest) EmptyString lines)
    with (unlines lines).
  rewrite IH. cbn [newline has_char]. rewrite Hc. reflexivity.
Qed.

Lemma pd_DataFrame_tracker (ts ms : list Q) :
  length ts = length ms ->
  pd_DataFrame [("timestamp", ts); ("memory_mb", ms)]
  = Ok (series_frame (zip ts ms)).
Proof.
  intros Hlen. unfold pd_DataFrame, series_frame. cbn [forallb snd].
  rewrite <- Hlen, Nat.eqb_refl. cbn [andb].
  rewrite fst_zip, snd_zip by lia. reflexivity.
Qed.

Section SavedText.
Context {FT : FloatText}.

Lemma csv_rows_series (s : list (Q * Q)) :
  map (fun r => String.concat "," (map float_repr r))
      (transpose (length s) [s.*1; s.*2])
  = map sample_line s.
Proof.
  unfold transpose. cbn [foldr].
  induction s as [|[t m] s IH]; [reflexivity|].
  cbn [length replicate fmap list_fmap zip_with map fst snd].
  f_equal. exact IH.
Qed.

Lemma csv_lines_series (s : list (Q * Q)) :
  csv_lines (series_frame s) = "timestamp,memory_mb" :: map sample_line s.
Proof.
  unfold csv_lines, series_frame. cbn [map fst snd df_len].
  rewrite length_fmap, csv_rows_series. reflexivity.
Qed.

(** What [save_data] does on a tracker whose two lists have the same
    length: it writes the text of the samples under the chosen name. *)
Lemma save_data_writes (self : MemoryTracker) (filename : option string)
      (w : World) :
  length (timestamps self) = length (memory_usage self) ->
  exists name,
    save_data self filename w
    = Ok (name, mkWorld (clock w) (clock_reads w) (rss w) (rss_reads w)
                        (now_stamp w)
                        (<[name := to_csv (series_frame (samples self))]>
                           (files w)))
    /\ (forall f, filename = Some f -> f <> EmptyString -> name = f).
Proof.
  intros Hlen. unfold save_data, bind.
  assert (Hname : exists name,
    match filename with
    | Some f =>
        if nonblank f then ret f
        else (fun w0 => match datetime_now_stamp w0 with
                        | Ok (a, w') =>
                            ret ("memory_usage_" +:+ label self +:+ "_"
                                 +:+ a +:+ ".csv") w'
                        | Raise e => Raise e
                        end)
    | None =>
        fun w0 => match datetime_now_stamp w0 with
                  | Ok (a, w') =>
                      ret ("memory_usage_" +:+ label self +:+ "_"
                           +:+ a +:+ ".csv") w'
                  | Raise e => Raise e
                  end
    end w = Ok (name, w)
    /\ (forall f, filename = Some f -> f <> EmptyString -> name = f)).
  { destruct filename as [f|].
    - unfold nonblank. destruct (String.eqb_spec f EmptyString) as [->|Hf].
      + cbn. eexists. split; [reflexivity|]. intros f [= <-] Hne. congruence.
      + cbn. eexists. split; [reflexivity|]. intros f' [= <-] _. reflexivity.
    - cbn. eexists. split; [reflexivity|]. intros f [=]. }
  destruct Hname as (name & Hrun & Hspec).
  exists name. split; [|exact Hspec].
  rewrite Hrun. unfold lift.
  rewrite (pd_DataFrame_tracker _ _ Hlen). reflexivity.
Qed.
End SavedText.

Section SavedLines.
Context {FT : FloatText}.

Lemma to_csv_series (s : list (Q * Q)) :
  to_csv (series_frame s)
  = unlines ("timestamp,memory_mb" :: map sample_line s).
Proof. unfold to_csv. rewrite csv_lines_series. reflexivity. Qed.

Lemma saved_text_header (s : list (Q * Q)) :
  head (split_on newline_char (to_csv (series_frame s)))
  = Some "timestamp,memory_mb".
Proof.
  rewrite to_csv_series. cbn [unlines foldr].
  rewrite newline_app, split_on_app; reflexivity.
Qed.

Hypothesis repr_plain : forall x, plain_field (float_repr x).

Lemma sample_line_fields (s : Q * Q) :
  split_on comma_char (sample_line s) = [float_repr s.1; float_repr s.2].
Proof.
  unfold sample_line.
  destruct (repr_plain s.1) as (_ & Hc1 & _).
  destruct (repr_plain s.2) as (_ & Hc2 & _).
  change ("," +:+ float_repr s.2) with (String comma_char (float_repr s.2)).
  rewrite (split_on_app _ _ _ Hc1), (split_on_plain _ _ Hc2). reflexivity.
Qed.

Lemma sample_line_no_newline (s : Q * Q) :
  has_char newline_char (sample_line s) = false.
Proof.
  unfold sample_line.
  destruct (repr_plain s.1) as (_ & _ & Hn1).
  destruct (repr_plain s.2) as (_ & _ & Hn2).
  rewrite !has_char_app, Hn1, Hn2. reflexivity.
Qed.

Lemma sample_line_nonblank (s : Q * Q) : sample_line s <> EmptyString.
Proof.
  unfold sample_line. destruct (repr_plain s.1) as (Hne & _ & _).
  destruct (float_repr s.1); [contradiction|discriminate].
Qed.

(** The lines read back from the saved text are the header and the lines
    of the samples, in order. *)
Lemma saved_text_lines (s : list (Q * Q)) :
  filter (fun l => Is_true (nonblank l))
         (split_on newline_char (to_csv (series_frame s)))
  = "timestamp,memory_mb" :: map sample_line s.
Proof.
  rewrite to_csv_series. apply nonblank_lines.
  - constructor; [reflexivity|]. apply Forall_fmap, Forall_forall.
    intros x _. apply sample_line_no_newline.
  - constructor; [discriminate|]. apply Forall_fmap, Forall_forall.
    intros x _. apply sample_line_nonblank.
Qed.

Hypothesis repr_unquoted : forall x, unquoted_field (float_repr x).

Lemma sample_line_no_carriage (s : Q * Q) :
  has_char carriage_char (sample_line s) = false.
Proof.
  unfold sample_line.
  destruct (repr_unquoted s.1) as (Hn1 & _).
  destruct (repr_unquoted s.2) as (Hn2 & _).
  rewrite !has_char_app, Hn1, Hn2. reflexivity.
Qed.

Lemma sample_line_no_quote (s : Q * Q) :
  has_char quote_char (sample_line s) = false.
Proof.
  unfold sample_line.
  destruct (repr_unquoted s.1) as (_ & Hn1).
  destruct (repr_unquoted s.2) as (_ & Hn2).
  rewrite !has_char_app, Hn1, Hn2. reflexivity.
Qed.

Lemma sample_line_unblank (s : Q * Q) : blank_line (sample_line s) = false.
Proof.
  apply (blank_line_has_char comma_char); [reflexivity|reflexivity|].
  unfold sample_line. rewrite !has_char_app. cbn [has_char].
  rewrite Ascii.eqb_refl. cbn [orb]. apply orb_true_r.
Qed.

(** The saved text as [read_csv] takes it apart: no quote, no carriage
    return, and the header and the lines of the samples as its rows. *)
Lemma saved_text_rows (s : list (Q * Q)) :
  has_char quote_char (to_csv (series_frame s)) = false
  /\ crlf_to_lf (to_csv (series_frame s)) = Some (to_csv (series_frame s))
  /\ filter (fun l => Is_true (negb (blank_line l)))
            (split_on newline_char (to_csv (series_frame s)))
     = "timestamp,memory_mb" :: map sample_line s.
Proof.
  rewrite to_csv_series. split; [|split].
  - apply has_char_unlines; [reflexivity|].
    constructor; [reflexivity|]. apply Forall_fmap, Forall_forall.
    intros x _. apply sample_line_no_quote.
  - apply crlf_to_lf_plain, has_char_unlines; [reflexivity|].
    constructor; [reflexivity|]. apply Forall_fmap, Forall_forall.
    intros x _. apply sample_line_no_carriage.
  - apply unblank_lines.
    + constructor; [reflexivity|]. apply Forall_fmap, Forall_forall.
      intros x _. apply sample_line_no_newline.
    + constructor; [reflexivity|]. apply Forall_fmap, Forall_forall.
      intros x _. apply sample_line_unblank.
Qed.
End SavedLines.

(** C3 (as stated, refuted): the header of a saved file names the columns
    [timestamp,memory_mb], not [elapsed_seconds,metric_value]. *)
Lemma C3_header_names_differ :
  exists name w' text,
    @save_data micro_text demo_tracker (Some "series.csv") demo_world
    = Ok (name, w')
    /\ files w' !! name = Some text
    /\ head (split_on newline_char text) = Some "timestamp,memory_mb"
    /\ head (split_on newline_char text) <> Some "elapsed_seconds,metric_value".
Proof.
  destruct (@save_data_writes micro_text demo_tracker (Some "series.csv")
              demo_world eq_refl) as (name & Hrun & _).
  eexists name, _, _. split; [exact Hrun|].
  split; [apply lookup_insert_eq|].
  rewrite saved_text_header. split; [reflexivity|discriminate].
Qed.

(** C3 (amended): [save_data] writes a text whose first line is the header
    [timestamp,memory_mb], followed by exactly one line per sample, in
    order, each made of the two numbers separated by a comma, every line
    ended by a newline and nothing after the last one. *)
Theorem C3_saved_file_format {FT : FloatText} (self : MemoryTracker)
        (filename : option string) (w : World) :
  length (timestamps self) = length (memory_usage self) ->
  exists name w' text,
    save_data self filename w = Ok (name, w')
    /\ files w' !! name = Some text
    /\ text = unlines ("timestamp,memory_mb" :: map sample_line (samples self))
    /\ ((forall x, plain_field (float_repr x)) ->
        filter (fun l => Is_true (nonblank l)) (split_on newline_char text)
        = "timestamp,memory_mb" :: map sample_line (samples self)
        /\ length (map sample_line (samples self)) = sample_count self
        /\ forall s, s ∈ samples self ->
             split_on comma_char (sample_line s)
             = [float_repr s.1; float_repr s.2]).
Proof.
  intros Hlen.
  destruct (save_data_writes self filename w Hlen) as (name & Hrun & _).
  eexists name, _, _. split; [exact Hrun|].
  split; [apply lookup_insert_eq|].
  split; [apply to_csv_series|].
  intros Hplain. split; [apply saved_text_lines; exact Hplain|].
  split; [apply length_fmap|].
  intros s _. apply sample_line_fields. exact Hplain.
Qed.

Lemma C3_saved_file_format_witness :
  exists name w' text,
    @save_data micro_text demo_tracker (Some "series.csv") demo_world
    = Ok (name, w')
    /\ files w' !! name = Some text
    /\ text = unlines ("timestamp,memory_mb"
                       :: map (@sample_line micro_text) (samples demo_tracker)).
Proof.
  destruct (@C3_saved_file_format micro_text demo_tracker (Some "series.csv")
              demo_world eq_refl) as (name & w' & text & H1 & H2 & H3 & _).
  exists name, w', text. split; [exact H1|]. split; [exact H2|exact H3].
Defined.

(** ** Loading a saved series *)

Lemma header_fields :
  split_on comma_char "timestamp,memory_mb" = ["timestamp"; "memory_mb"].
Proof. reflexivity. Qed.

Lemma transpose_sample_rows (s : list (Q * Q)) :
  transpose 2 (map (fun p => [p.1; p.2]) s) = [s.*1; s.*2].
Proof.
  unfold transpose. induction s as [|[t m] s IH]; [reflexivity|].
  cbn [map foldr]. rewrite IH. reflexivity.
Qed.

Section RoundTrip.
Context {FT : FloatText}.
(** equality of numbers up to the precision of the text *)
Variable approx : Q -> Q -> Prop.
Hypothesis repr_plain : forall x, plain_field (float_repr x).
Hypothesis repr_unquoted : forall x, unquoted_field (float_repr x).
Hypothesis parse_repr :
  forall x, exists y, float_parse (float_repr x) = Some y /\ approx x y.

Lemma parse_sample_lines (s : list (Q * Q)) :
  exists s',
    parse_rows 2 (map sample_line s) = Some (map (fun p => [p.1; p.2]) s')
    /\ Forall2 (approx_sample approx) s s'.
Proof.
  induction s as [|p s (s' & Hrows & Hall)].
  - exists []. split; [reflexivity|constructor].
  - destruct (parse_repr p.1) as (t' & Ht & At).
    destruct (parse_repr p.2) as (m' & Hm & Am).
    exists ((t', m') :: s'). split.
    + cbn [map parse_rows]. rewrite (sample_line_fields repr_plain), Hrows.
      cbn [parse_fields]. rewrite Ht, Hm. reflexivity.
    + constructor; [split; assumption|exact Hall].
Qed.

Lemma read_saved_text (s : list (Q * Q)) :
  exists s',
    read_csv_text (to_csv (series_frame s)) = Some (Ok (series_frame s'))
    /\ Forall2 (approx_sample approx) s s'.
Proof.
  destruct (parse_sample_lines s) as (s' & Hrows & Hall).
  exists s'. split; [|exact Hall].
  destruct (saved_text_rows repr_plain repr_unquoted s) as (Hq & Hcr & Hrs).
  unfold read_csv_text. rewrite Hq, Hcr, Hrs, header_fields.
  cbn [forallb string_nodup existsb andb negb nonblank length].
  replace (forallb nonblank ["timestamp"; "memory_mb"]
           && string_nodup ["timestamp"; "memory_mb"]) with true by reflexivity.
  rewrite Hrows, transpose_sample_rows. reflexivity.
Qed.

(** C5: saving a non-empty series and loading the file again gives a
    series with the same number of samples whose elapsed times and memory
    values equal the saved ones up to the precision of the number text. *)
Theorem C5_save_load_round_trip (self : MemoryTracker)
        (filename : option string) (w : World) :
  length (timestamps self) = length (memory_usage self) ->
  samples self <> [] ->
  exists name w' s',
    save_data self filename w = Ok (name, w')
    /\ read_csv name w' = Some (Ok (series_frame s'))
    /\ length s' = sample_count self
    /\ Forall2 (approx_sample approx) (samples self) s'.
Proof.
  intros Hlen _.
  destruct (save_data_writes self filename w Hlen) as (name & Hrun & _).
  destruct (read_saved_text (samples self)) as (s' & Hread & Hall).
  eexists name, _, s'. split; [exact Hrun|].
  split; [|split; [|exact Hall]].
  - unfold read_csv. cbn [files]. rewrite lookup_insert_eq. exact Hread.
  - symmetry. apply (Forall2_length _ _ _ Hall).
Qed.
End RoundTrip.

(** ** The example number text satisfies the assumptions *)

Lemma has_char_uint (c : ascii) (d : Decimal.uint) :
  has_char c "0123456789-" = false ->
  has_char c (NilEmpty.string_of_uint d) = false.
Proof.
  intros H. cbn [has_char] in H.
  repeat (apply orb_false_iff in H as [? H]).
  induction d; cbn [NilEmpty.string_of_uint has_char];
    rewrite ?IHd; try reflexivity;
    match goal with
    | Hc : ?e = false |- ?e || false = false => rewrite Hc; reflexivity
    end.
Qed.

Lemma has_char_int (c : ascii) (d : Decimal.int) :
  has_char c "0123456789-" = false ->
  has_char c (NilEmpty.string_of_int d) = false.
Proof.
  intros H. destruct d as [d|d]; cbn [NilEmpty.string_of_int has_char].
  - apply has_char_uint, H.
  - rewrite (has_char_uint c d H).
    cbn [has_char] in H. repeat (apply orb_false_iff in H as [? H]).
    match goal with
    | Hc : ?e = false |- ?e || false = false => rewrite Hc; reflexivity
    end.
Qed.

Lemma micro_repr_plain (x : Q) : plain_field (micro_repr x).
Proof.
  unfold plain_field, micro_repr. split; [|split].
  - destruct (NilEmpty.string_of_int _); discriminate.
  - rewrite has_char_app, has_char_int; reflexivity.
  - rewrite has_char_app, has_char_int; reflexivity.
Qed.

Lemma micro_repr_unquoted (x : Q) : unquoted_field (micro_repr x).
Proof.
  unfold unquoted_field, micro_repr. split.
  - rewrite has_char_app, has_char_int; reflexivity.
  - rewrite has_char_app, has_char_int; reflexivity.
Qed.

Lemma micro_parse_repr (x : Q) :
  exists y, micro_parse (micro_repr x) = Some y /\ within_a_millionth x y.
Proof.
  exists (inject_Z (Qfloor (x * million)) / million)%Q. split.
  - unfold micro_parse, micro_repr.
    change "e-6" with (String (ascii_of_nat 101) "-6").
    rewrite split_on_app by (apply has_char_int; reflexivity).
    cbn [split_on Ascii.eqb ascii_of_nat].
    change (split_on (ascii_of_nat 101) "-6") with ["-6"].
    cbn [String.eqb].
    replace (String.eqb "-6" "-6") with true by reflexivity.
    rewrite NilEmpty.isi, DecimalZ.of_to. reflexivity.
  - unfold within_a_millionth.
    pose proof (Qfloor_le (x * million)) as Hlo.
    pose proof (Qlt_floor (x * million)) as Hhi.
    rewrite inject_Z_plus in Hhi.
    set (z := inject_Z (Qfloor (x * million))) in *.
    unfold million in *. change (inject_Z 1000000) with (1000000 # 1)%Q in *.
    change (inject_Z 1) with 1%Q in Hhi.
    assert (Hz : (z / (1000000 # 1) == z * (1 # 1000000))%Q) by field.
    rewrite Hz. apply Qabs_Qle_condition. split; lra.
Qed.

Lemma C5_save_load_round_trip_witness :
  exists name w' s',
    @save_data micro_text demo_tracker (Some "series.csv") demo_world
    = Ok (name, w')
    /\ @read_csv micro_text name w' = Some (Ok (series_frame s'))
    /\ length s' = sample_count demo_tracker
    /\ Forall2 (approx_sample within_a_millionth) (samples demo_tracker) s'.
Proof.
  apply (@C5_save_load_round_trip micro_text within_a_millionth
           micro_repr_plain micro_repr_unquoted micro_parse_repr
           demo_tracker (Some "series.csv") demo_world).
  - reflexivity.
  - discriminate.
Defined.

Lemma C8_trend_is_least_squares_witness :
  exists fig a b,
    plot line_tracker None = Ok fig
    /\ fig_trend fig
       = Some (FitLine a b, map (fun t => a * t + b)%Q (timestamps line_tracker))
    /\ forall a' b',
        (sq_error (timestamps line_tracker) (memory_usage line_tracker) a b
         <= sq_error (timestamps line_tracker) (memory_usage line_tracker) a' b')%Q.
Proof.
  apply (proj1 C8_trend_is_least_squares line_tracker None 0%Q 1%Q).
  - reflexivity.
  - apply list_elem_of_here.
  - apply list_elem_of_further, list_elem_of_here.
  - intros H. discriminate H.
Defined.

(** * Further properties *)

(** ** Runs of a tracker *)

(** Everything one call of [_record_point] does to tracker and world. *)
Lemma record_point_effect (self : MemoryTracker) (w : World) :
  exists e w',
    _record_point self w
    = Ok (mkTracker (label self) (timestamps self ++ [e])
                    (memory_usage self ++ [next_rss_mb w]) (start_time self), w')
    /\ clock w' = clock w /\ rss w' = rss w
    /\ files w' = files w /\ now_stamp w' = now_stamp w
    /\ rss_reads w' = S (rss_reads w)
    /\ match start_time self with
       | Some s =>
           if float_truthy s
           then e = (clock w (clock_reads w) - s)%Q
                /\ clock_reads w' = S (clock_reads w)
           else e = 0%Q /\ clock_reads w' = clock_reads w
       | None => e = 0%Q /\ clock_reads w' = clock_reads w
       end.
Proof.
  unfold _record_point, bind, memory_info_rss, next_rss_mb.
  destruct (start_time self) as [s|]; [destruct (float_truthy s)|]; cbn;
    eexists _, _; (split; [reflexivity|]); cbn; repeat split; reflexivity.
Qed.

Lemma call_effect (c : Call) (self : MemoryTracker) (w : World) :
  exists self' w',
    call c self w = Ok (self', w')
    /\ label self' = label self
    /\ length (timestamps self') =
       S (match c with CallStart => 0 | _ => length (timestamps self) end)
    /\ length (memory_usage self') =
       S (match c with CallStart => 0 | _ => length (memory_usage self) end)
    /\ clock w' = clock w /\ rss w' = rss w
    /\ files w' = files w /\ now_stamp w' = now_stamp w.
Proof.
  destruct c; cbn [call]; unfold start, record, stop, bind, time_time.
  - match goal with
    | |- context [_record_point ?t ?w0] =>
        destruct (record_point_effect t w0)
          as (e & w' & Hrun & Hc & Hr & Hf & Hs & _ & _)
    end.
    eexists _, w'. split; [exact Hrun|]. cbn. repeat split; assumption.
  - destruct (record_point_effect self w)
      as (e & w' & Hrun & Hc & Hr & Hf & Hs & _ & _).
    eexists _, w'. split; [exact Hrun|]. cbn. rewrite !length_app. cbn.
    repeat split; try assumption; lia.
  - destruct (record_point_effect self w)
      as (e & w' & Hrun & Hc & Hr & Hf & Hs & _ & _).
    eexists _, w'. split; [exact Hrun|]. cbn. rewrite !length_app. cbn.
    repeat split; try assumption; lia.
Qed.

Lemma calls_aligned (cs : list Call) (self : MemoryTracker) (w : World) :
  length (timestamps self) = length (memory_usage self) ->
  exists self' w',
    calls cs self w = Ok (self', w')
    /\ length (timestamps self') = length (memory_usage self')
    /\ label self' = label self
    /\ files w' = files w /\ now_stamp w' = now_stamp w.
Proof.
  revert self w. induction cs as [|c cs IH]; intros self w Hlen.
  - exists self, w. repeat split; assumption.
  - cbn [calls]. unfold bind.
    destruct (call_effect c self w)
      as (t1 & w1 & Hrun & Hlab & Ht & Hm & _ & _ & Hf & Hs).
    rewrite Hrun.
    destruct (IH t1 w1) as (t2 & w2 & Hrun2 & Hlen2 & Hlab2 & Hf2 & Hs2).
    { rewrite Ht, Hm. destruct c; congruence. }
    exists t2, w2. split; [exact Hrun2|]. split; [exact Hlen2|].
    split; [congruence|]. split; congruence.
Qed.

Lemma samples_aligned_count (self : MemoryTracker) :
  length (timestamps self) = length (memory_usage self) ->
  sample_count self = length (timestamps self).
Proof.
  intros Hlen. unfold sample_count, samples. rewrite length_zip_with. lia.
Qed.

Section SaveData.
Context {FT : FloatText}.

Lemma save_data_effect (self : MemoryTracker) (filename : option string)
      (w : World) :
  length (timestamps self) = length (memory_usage self) ->
  let name := match filename with
              | Some f => if nonblank f then f else default_filename self w
              | None => default_filename self w
              end in
  save_data self filename w
  = Ok (name, mkWorld (clock w) (clock_reads w) (rss w) (rss_reads w)
                      (now_stamp w)
                      (<[name := to_csv (series_frame (samples self))]>
                         (files w))).
Proof.
  intros Hlen name. subst name. unfold save_data, bind, lift, default_filename.
  rewrite (pd_DataFrame_tracker _ _ Hlen).
  destruct filename as [f|]; [destruct (nonblank f)|]; reflexivity.
Qed.

(** X3: [save_data] writes one file and nothing else: the file is the one
    named by the argument, or, without a (non-empty) argument,
    [memory_usage_<label>_<date>.csv]; every other file of the directory is
    as before, an older file of that name is replaced, and neither the
    clock nor the memory query is consulted. *)
Theorem save_data_writes_one_file (self : MemoryTracker)
        (filename : option string) (w : World) :
  length (timestamps self) = length (memory_usage self) ->
  exists name w',
    save_data self filename w = Ok (name, w')
    /\ (forall f, filename = Some f -> f <> EmptyString -> name = f)
    /\ (filename = None \/ filename = Some EmptyString ->
        name = "memory_usage_" +:+ label self +:+ "_" +:+ now_stamp w +:+ ".csv")
    /\ files w' !! name = Some (to_csv (series_frame (samples self)))
    /\ (forall other, other <> name -> files w' !! other = files w !! other)
    /\ clock_reads w' = clock_reads w
    /\ rss_reads w' = rss_reads w.
Proof.
  intros Hlen. eexists _, _. split; [apply (save_data_effect _ _ _ Hlen)|].
  cbn [files clock_reads rss_reads].
  split; [|split; [|split; [|split; [|split; reflexivity]]]].
  - intros f -> Hf. unfold nonblank.
    destruct (String.eqb_spec f EmptyString); [contradiction|reflexivity].
  - intros [-> | ->]; reflexivity.
  - apply lookup_insert_eq.
  - intros other Hne. apply lookup_insert_ne. congruence.
Qed.

(** X4: on a tracker whose two lists differ in length [save_data] raises
    [ValueError], from building the frame, before anything is written. *)
Theorem save_data_misaligned (self : MemoryTracker) (filename : option string)
        (w : World) :
  length (timestamps self) <> length (memory_usage self) ->
  save_data self filename w = Raise ValueError.
Proof.
  intros Hlen. unfold save_data, bind, lift, pd_DataFrame. cbn [forallb snd].
  replace (length (memory_usage self) =? length (timestamps self))%nat
    with false by (symmetry; apply Nat.eqb_neq; congruence).
  destruct filename as [f|]; [destruct (nonblank f)|]; reflexivity.
Qed.
End SaveData.

Lemma save_data_writes_one_file_witness :
  exists name w',
    @save_data micro_text demo_tracker None demo_world = Ok (name, w')
    /\ name = "memory_usage_test_20240101-000000.csv"
    /\ files w' !! "other.csv" = None.
Proof.
  destruct (@save_data_writes_one_file micro_text demo_tracker None demo_world
              eq_refl)
    as (name & w' & Hrun & _ & Hname & _ & Hother & _).
  exists name, w'. split; [exact Hrun|].
  assert (Hn : name = "memory_usage_test_20240101-000000.csv")
    by (rewrite Hname; [reflexivity|left; reflexivity]).
  split; [exact Hn|]. rewrite Hother; [reflexivity|]. rewrite Hn. discriminate.
Defined.

Lemma save_data_misaligned_witness :
  @save_data micro_text (mkTracker "skewed" [0%Q] [] None) None demo_world
  = Raise ValueError.
Proof.
  apply (@save_data_misaligned micro_text). cbn. discriminate.
Defined.

Lemma calls_count (cs : list Call) (self : MemoryTracker) (w : World) :
  exists self' w',
    calls cs self w = Ok (self', w')
    /\ length (timestamps self') = samples_after cs (length (timestamps self)).
Proof.
  revert self w. induction cs as [|c cs IH]; intros self w.
  - exists self, w. split; reflexivity.
  - cbn [calls]. unfold bind.
    destruct (call_effect c self w) as (t1 & w1 & Hrun & _ & Ht & _).
    rewrite Hrun. destruct (IH t1 w1) as (t2 & w2 & Hrun2 & Hn).
    exists t2, w2. split; [exact Hrun2|]. rewrite Hn, Ht.
    destruct c; reflexivity.
Qed.

(** X1: whatever sequence of [start()], [record()] and [stop()] is called
    on a new tracker, every call returns, the two lists stay of equal
    length, the number of samples is one per call made since the last
    [start()] (that call included), the label is unchanged, and [save_data]
    then succeeds. *)
Theorem calls_keep_lists_aligned {FT : FloatText} (lbl : option string)
        (cs : list Call) (w : World) (filename : option string) :
  exists self' w' name w'',
    calls cs (MemoryTracker_init lbl) w = Ok (self', w')
    /\ length (timestamps self') = length (memory_usage self')
    /\ sample_count self' = samples_after cs 0
    /\ label self' = default "test" lbl
    /\ save_data self' filename w' = Ok (name, w'').
Proof.
  destruct (calls_aligned cs (MemoryTracker_init lbl) w eq_refl)
    as (t' & w' & Hrun & Hlen & Hlab & _ & _).
  destruct (calls_count cs (MemoryTracker_init lbl) w) as (t2 & w2 & Hrun2 & Hn).
  rewrite Hrun in Hrun2. injection Hrun2 as <- <-.
  eexists t', w', _, _. split; [exact Hrun|]. split; [exact Hlen|].
  split; [rewrite (samples_aligned_count _ Hlen); exact Hn|].
  split; [exact Hlab|]. apply (save_data_effect _ _ _ Hlen).
Qed.

(** ** Elapsed times under a monotone clock *)

Lemma sorted_snoc (l : list Q) (e : Q) :
  StronglySorted Qle l -> Forall (fun v => (v <= e)%Q) l ->
  StronglySorted Qle (l ++ [e]).
Proof.
  induction 1 as [|v l Hs IH Hv]; intros Hall; cbn.
  - repeat constructor.
  - apply Forall_cons in Hall as [Hve Hall]. constructor; [apply IH, Hall|].
    apply Forall_app. split; [exact Hv|]. constructor; [exact Hve|constructor].
Qed.

Lemma zeros_sorted (l : list Q) :
  Forall (fun e => e = 0%Q) l ->
  StronglySorted Qle l /\ Forall (fun e => (0 <= e)%Q) l.
Proof.
  induction 1 as [|v l -> Hl [IHs IHn]]; split.
  - constructor.
  - constructor.
  - constructor; [exact IHs|].
    eapply Forall_impl; [exact Hl|]. intros e ->. apply Qle_refl.
  - constructor; [apply Qle_refl|exact IHn].
Qed.

Lemma record_point_bounded (self : MemoryTracker) (w : World) :
  monotone_clock w ->
  times_bounded self w ->
  StronglySorted Qle (timestamps self) ->
  exists self' w',
    _record_point self w = Ok (self', w')
    /\ clock w' = clock w
    /\ times_bounded self' w'
    /\ StronglySorted Qle (timestamps self').
Proof.
  intros Hmono Hb Hs.
  destruct (record_point_effect self w)
    as (e & w' & Hrun & Hc & _ & _ & _ & _ & He).
  eexists _, w'. split; [exact Hrun|]. split; [exact Hc|].
  unfold times_bounded in *. cbn [start_time timestamps]. rewrite Hc.
  destruct (start_time self) as [s|].
  - destruct (float_truthy s).
    + destruct He as [-> Hreads]. destruct Hb as ((i & Hi & ->) & Hall).
      rewrite Hreads. split; [split|].
      * exists i. split; [lia|reflexivity].
      * apply Forall_app. split.
        -- eapply Forall_impl; [exact Hall|]. intros e0 [H0 Hj].
           split; [exact H0|]. intros j Hle. apply Hj. lia.
        -- constructor; [|constructor]. split.
           ++ pose proof (Hmono i (clock_reads w) ltac:(lia)). lra.
           ++ intros j Hle. pose proof (Hmono (clock_reads w) j ltac:(lia)). lra.
      * apply sorted_snoc; [exact Hs|].
        eapply Forall_impl; [exact Hall|]. intros e0 [_ Hj].
        apply Hj. lia.
    + destruct He as [-> _]. split.
      * apply Forall_app. split; [exact Hb|repeat constructor].
      * apply sorted_snoc; [exact Hs|].
        eapply Forall_impl; [exact Hb|]. intros e0 ->. apply Qle_refl.
  - destruct He as [-> _]. split.
    + apply Forall_app. split; [exact Hb|repeat constructor].
    + apply sorted_snoc; [exact Hs|].
      eapply Forall_impl; [exact Hb|]. intros e0 ->. apply Qle_refl.
Qed.

Lemma call_bounded (c : Call) (self : MemoryTracker) (w : World) :
  monotone_clock w ->
  times_bounded self w ->
  StronglySorted Qle (timestamps self) ->
  exists self' w',
    call c self w = Ok (self', w')
    /\ clock w' = clock w
    /\ times_bounded self' w'
    /\ StronglySorted Qle (timestamps self').
Proof.
  intros Hmono Hb Hs. destruct c; cbn [call];
    try (apply record_point_bounded; assumption).
  unfold start, bind, time_time.
  match goal with
  | |- context [_record_point ?t ?w0] =>
      destruct (record_point_bounded t w0) as (t' & w' & Hrun & Hc & Hb' & Hs')
  end.
  - exact Hmono.
  - unfold times_bounded. cbn.
    destruct (float_truthy (clock w (clock_reads w))); [|constructor].
    split; [|constructor]. exists (clock_reads w). split; [lia|reflexivity].
  - constructor.
  - exists t', w'. split; [exact Hrun|]. split; [exact Hc|]. split; assumption.
Qed.

Lemma times_bounded_nonneg (self : MemoryTracker) (w : World) :
  times_bounded self w -> Forall (fun e => (0 <= e)%Q) (timestamps self).
Proof.
  unfold times_bounded.
  destruct (start_time self) as [s|]; [destruct (float_truthy s)|].
  - intros [_ Hall]. eapply Forall_impl; [exact Hall|]. intros e [H0 _]. exact H0.
  - intros H. apply (zeros_sorted _ H).
  - intros H. apply (zeros_sorted _ H).
Qed.

(** X2: if the clock never runs backwards, then after any sequence of
    [start()], [record()] and [stop()] on a new tracker the elapsed times
    are non-negative and non-decreasing in the order of the samples. *)
Theorem elapsed_times_monotone (lbl : option string) (cs : list Call)
        (w : World) :
  monotone_clock w ->
  exists self' w',
    calls cs (MemoryTracker_init lbl) w = Ok (self', w')
    /\ StronglySorted Qle (timestamps self')
    /\ Forall (fun e => (0 <= e)%Q) (timestamps self').
Proof.
  intros Hmono.
  assert (Hgen : forall cs self w,
    monotone_clock w -> times_bounded self w ->
    StronglySorted Qle (timestamps self) ->
    exists self' w',
      calls cs self w = Ok (self', w')
      /\ times_bounded self' w' /\ StronglySorted Qle (timestamps self')).
  { clear. induction cs as [|c cs IH]; intros self w Hmono Hb Hs.
    - exists self, w. split; [reflexivity|]. split; assumption.
    - cbn [calls]. unfold bind.
      destruct (call_bounded c self w Hmono Hb Hs)
        as (t1 & w1 & Hrun & Hc & Hb1 & Hs1).
      rewrite Hrun. apply IH; try assumption.
      unfold monotone_clock. rewrite Hc. exact Hmono. }
  destruct (Hgen cs (MemoryTracker_init lbl) w Hmono) as (t' & w' & Hrun & Hb & Hs).
  - constructor.
  - constructor.
  - exists t', w'. split; [exact Hrun|]. split; [exact Hs|].
    apply (times_bounded_nonneg _ _ Hb).
Qed.

Lemma demo_world_monotone : monotone_clock demo_world.
Proof.
  intros i j Hij. cbn. rewrite <- Zle_Qle. lia.
Qed.

Lemma elapsed_times_monotone_witness :
  exists self' w',
    calls [CallRecord; CallStart; CallRecord; CallStop] fresh_tracker demo_world
    = Ok (self', w')
    /\ StronglySorted Qle (timestamps self')
    /\ Forall (fun e => (0 <= e)%Q) (timestamps self').
Proof.
  apply (elapsed_times_monotone None
           [CallRecord; CallStart; CallRecord; CallStop] demo_world).
  exact demo_world_monotone.
Defined.

(** ** Comparison: columns and files *)

Lemma df_getitem_cases (df : DataFrame) (name : string) :
  (has_column df name /\ exists c, df_getitem df name = Ok c)
  \/ (~ has_column df name /\ df_getitem df name = Raise KeyError).
Proof.
  unfold has_column. induction df as [|[k c] df IH]; cbn [df_getitem fmap list_fmap fst].
  - right. split; [apply not_elem_of_nil|reflexivity].
  - destruct (String.eqb_spec k name) as [->|Hne].
    + left. split; [apply list_elem_of_here|eauto].
    + destruct IH as [[Hin Hc]|[Hnin Hr]].
      * left. split; [apply list_elem_of_further, Hin|exact Hc].
      * right. split; [|exact Hr]. intros Hin.
        apply elem_of_cons in Hin as [Heq|Hin]; [congruence|contradiction].
Qed.

Lemma missing_column_raises {FT : FloatText} (bad_data good_data : DataFrame) :
  ~ (has_column bad_data "timestamp" /\ has_column bad_data "memory_mb"
     /\ has_column good_data "timestamp" /\ has_column good_data "memory_mb") ->
  compare_frames bad_data good_data = Raise KeyError.
Proof.
  intros Hmiss. unfold compare_frames.
  destruct (df_getitem_cases bad_data "timestamp") as [[H1 (c1 & E1)]|[_ E1]];
    rewrite E1; cbn [rbind]; [|reflexivity].
  destruct (df_getitem_cases bad_data "memory_mb") as [[H2 (c2 & E2)]|[_ E2]];
    rewrite E2; cbn [rbind]; [|reflexivity].
  destruct (df_getitem_cases good_data "timestamp") as [[H3 (c3 & E3)]|[_ E3]];
    rewrite E3; cbn [rbind]; [|reflexivity].
  destruct (df_getitem_cases good_data "memory_mb") as [[H4 (c4 & E4)]|[_ E4]];
    rewrite E4; cbn [rbind]; [|reflexivity].
  exfalso. apply Hmiss. repeat split; assumption.
Qed.

(** X5: when either frame lacks the column [timestamp] or the column
    [memory_mb], the comparison raises [KeyError] before it computes
    anything; the names are fixed, so a file with other column names cannot
    be compared. *)
Theorem compare_frames_missing_column {FT : FloatText}
        (bad_data good_data : DataFrame) :
  ~ (has_column bad_data "timestamp" /\ has_column bad_data "memory_mb"
     /\ has_column good_data "timestamp" /\ has_column good_data "memory_mb") ->
  compare_frames bad_data good_data = Raise KeyError.
Proof. apply missing_column_raises. Qed.

Lemma compare_frames_missing_column_witness :
  @compare_frames micro_text
    [("elapsed_seconds", [0%Q; 1%Q]); ("metric_value", [5%Q; 6%Q])]
    (series_frame line_series)
  = Raise KeyError.
Proof.
  apply (@compare_frames_missing_column micro_text).
  intros (H & _). unfold has_column in H. cbn in H.
  apply elem_of_cons in H as [H|H]; [discriminate H|].
  apply elem_of_cons in H as [H|H]; [discriminate H|].
  inversion H.
Defined.

Lemma insert_sorted_perm (s : string) (l : list string) :
  insert_sorted s l ≡ₚ s :: l.
Proof.
  induction l as [|x l IH]; cbn [insert_sorted]; [reflexivity|].
  destruct (String.leb s x); [reflexivity|].
  rewrite IH. apply Permutation_swap.
Qed.

Lemma sorted_perm (l : list string) : sorted l ≡ₚ l.
Proof.
  induction l as [|x l IH]; cbn; [reflexivity|].
  fold (sorted l). rewrite insert_sorted_perm, IH. reflexivity.
Qed.

Lemma leb_false_le (s x : string) : String.leb s x = false -> String.le x s.
Proof.
  intros H. destruct (total String.le s x) as [Hsx|Hxs]; [|exact Hxs].
  unfold String.le in Hsx. rewrite H in Hsx. contradiction.
Qed.

Lemma insert_sorted_sorted (s : string) (l : list string) :
  StronglySorted String.le l -> StronglySorted String.le (insert_sorted s l).
Proof.
  induction 1 as [|x l Hs IH Hx]; cbn [insert_sorted].
  - repeat constructor.
  - destruct (String.leb s x) eqn:E.
    + constructor; [constructor; assumption|].
      assert (Hsx : String.le s x) by (unfold String.le; rewrite E; exact I).
      constructor; [exact Hsx|].
      eapply Forall_impl; [exact Hx|]. intros y Hy. etrans; eassumption.
    + constructor; [exact IH|].
      rewrite insert_sorted_perm. constructor; [apply leb_false_le, E|exact Hx].
Qed.

Lemma sorted_sorted (l : list string) : StronglySorted String.le (sorted l).
Proof.
  induction l as [|x l IH]; cbn; [constructor|].
  apply insert_sorted_sorted, IH.
Qed.

Lemma sorted_last_greatest (l : list string) (f : string) :
  StronglySorted String.le l -> last l = Some f ->
  forall g, g ∈ l -> String.le g f.
Proof.
  induction 1 as [|x l Hs IH Hx]; intros Hl g Hg; [inversion Hg|].
  destruct l as [|y l].
  - injection Hl as <-. apply list_elem_of_singleton in Hg as ->. reflexivity.
  - change (last (x :: y :: l)) with (last (y :: l)) in Hl.
    apply elem_of_cons in Hg as [->|Hg]; [|apply IH; assumption].
    rewrite Forall_forall in Hx. etrans; [apply (Hx y), list_elem_of_here|].
    apply IH; [exact Hl|apply list_elem_of_here].
Qed.

Lemma elem_of_glob (prefix suffix name : string) (w : World) :
  name ∈ glob prefix suffix w
  <-> is_Some (files w !! name) /\ glob_match prefix suffix name = true.
Proof.
  unfold glob. rewrite list_elem_of_In, filter_In, <- list_elem_of_In.
  rewrite list_elem_of_fmap. split.
  - intros [((k & v) & -> & Hkv) Hm]. split; [|exact Hm].
    apply elem_of_map_to_list in Hkv. cbn. eauto.
  - intros [(v & Hv) Hm]. split; [|exact Hm].
    exists (name, v). split; [reflexivity|]. apply elem_of_map_to_list, Hv.
Qed.

(** X6: of the files that match a pattern, [compare_implementations] takes
    the one whose name is greatest in string order: the name selected by
    [sorted(glob(...))[-1]] is a matching file of the directory, and no
    matching file has a greater name. *)
Theorem latest_file_selected (prefix suffix : string) (w : World) (f : string) :
  last (sorted (glob prefix suffix w)) = Some f ->
  is_Some (files w !! f)
  /\ glob_match prefix suffix f = true
  /\ forall g, is_Some (files w !! g) -> glob_match prefix suffix g = true ->
               String.leb g f = true.
Proof.
  intros Hl.
  assert (Hf : f ∈ glob prefix suffix w).
  { rewrite <- sorted_perm. apply last_Some_elem_of, Hl. }
  apply elem_of_glob in Hf as [Hex Hm]. split; [exact Hex|]. split; [exact Hm|].
  intros g Hg Hgm.
  assert (Hin : g ∈ sorted (glob prefix suffix w)).
  { rewrite sorted_perm. apply elem_of_glob. split; assumption. }
  pose proof (sorted_last_greatest _ f (sorted_sorted _) Hl g Hin) as Hle.
  unfold String.le in Hle. destruct (String.leb g f); [reflexivity|contradiction].
Qed.

Lemma latest_file_selected_witness :
  is_Some (files two_bad_files_world !! "bad_implementation_memory_success.csv")
  /\ String.leb "bad_implementation_memory_error.csv"
                "bad_implementation_memory_success.csv" = true.
Proof.
  destruct (latest_file_selected "bad_implementation_memory_" ".csv"
              two_bad_files_world "bad_implementation_memory_success.csv")
    as (Hex & _ & Hmax).
  - vm_compute. reflexivity.
  - split; [exact Hex|]. apply Hmax.
    + vm_compute. eexists. reflexivity.
    + vm_compute. reflexivity.
Defined.

Lemma last_sorted_None (l : list string) : last (sorted l) = None <-> l = [].
Proof.
  rewrite last_None. split.
  - intros H. apply Permutation_nil_r. rewrite <- H. symmetry. apply sorted_perm.
  - intros ->. reflexivity.
Qed.

Lemma glob_nil (prefix suffix : string) (w : World) :
  glob prefix suffix w = []
  <-> forall name, is_Some (files w !! name) -> glob_match prefix suffix name = false.
Proof.
  split.
  - intros Hnil name Hex. destruct (glob_match prefix suffix name) eqn:E; [|reflexivity].
    assert (Hin : name ∈ glob prefix suffix w) by (apply elem_of_glob; auto).
    rewrite Hnil in Hin. inversion Hin.
  - intros Hall. destruct (glob prefix suffix w) as [|x l] eqn:E; [reflexivity|].
    assert (Hin : x ∈ glob prefix suffix w) by (rewrite E; apply list_elem_of_here).
    apply elem_of_glob in Hin as [Hex Hm]. rewrite (Hall x Hex) in Hm. discriminate.
Qed.

(** X7: [compare_implementations] stops with the message that no CSV files
    were found, without raising, exactly when the directory holds no file
    named [bad_implementation_memory_*.csv] or no file named
    [good_implementation_memory_*.csv]. *)
Theorem no_csv_files_iff {FT : FloatText} (w : World) :
  compare_implementations w = Some (Ok NoCsvFiles)
  <-> (forall name, is_Some (files w !! name) ->
         glob_match "bad_implementation_memory_" ".csv" name = false)
      \/ (forall name, is_Some (files w !! name) ->
            glob_match "good_implementation_memory_" ".csv" name = false).
Proof.
  rewrite <- !glob_nil, <- !last_sorted_None. unfold compare_implementations.
  destruct (last (sorted (glob "bad_implementation_memory_" ".csv" w)))
    as [bad_csv|];
    [destruct (last (sorted (glob "good_implementation_memory_" ".csv" w)))
       as [good_csv|]|].
  - split; [|intros [H|H]; discriminate H].
    destruct (read_csv bad_csv w) as [[bad_data|e]|]; [|discriminate..].
    destruct (read_csv good_csv w) as [[good_data|e]|]; [|discriminate..].
    destruct (compare_frames bad_data good_data); discriminate.
  - split; [intros _; right; reflexivity|reflexivity].
  - split; [intros _; left; reflexivity|reflexivity].
Qed.

(** A text all of whose lines are empty holds newlines only. *)
Lemma empty_lines_chars (c : ascii) (text : string) :
  Ascii.eqb newline_char c = false ->
  Forall (fun l => l = EmptyString) (split_on newline_char text) ->
  has_char c text = false.
Proof.
  intros Hc. induction text as [|a text IH]; [reflexivity|].
  cbn [split_on has_char].
  destruct (Ascii.eqb_spec a newline_char) as [->|Ha].
  - intros H. apply Forall_cons in H as [_ H]. rewrite Hc. exact (IH H).
  - destruct (split_on newline_char text) as [|x xs]; intros H;
      apply Forall_cons in H as [H _]; discriminate H.
Qed.

(** X8: a selected file without any non-blank line makes the comparison
    stop with the loading error [EmptyDataError] caught: nothing is raised
    and no frame is compared.  For the second file this holds when the
    first one loads. *)
Theorem blank_file_is_caught {FT : FloatText} (w : World)
        (bad_csv good_csv text : string) :
  last (sorted (glob "bad_implementation_memory_" ".csv" w)) = Some bad_csv ->
  last (sorted (glob "good_implementation_memory_" ".csv" w)) = Some good_csv ->
  Forall (fun l => l = EmptyString) (split_on newline_char text) ->
  (files w !! bad_csv = Some text ->
   compare_implementations w = Some (Ok (LoadError EmptyDataError)))
  /\ (forall bad_data,
        read_csv bad_csv w = Some (Ok bad_data) ->
        files w !! good_csv = Some text ->
        compare_implementations w = Some (Ok (LoadError EmptyDataError))).
Proof.
  intros Hb Hg Hblank.
  assert (Hread : read_csv_text text = Some (Raise EmptyDataError)).
  { unfold read_csv_text.
    rewrite (empty_lines_chars quote_char text eq_refl Hblank).
    rewrite (crlf_to_lf_plain text
               (empty_lines_chars carriage_char text eq_refl Hblank)).
    replace (filter (fun l => Is_true (negb (blank_line l)))
                    (split_on newline_char text))
      with (@nil string); [reflexivity|].
    symmetry. induction Hblank as [|l ls -> _ IH]; [reflexivity|].
    rewrite filter_cons_False; [exact IH|]. cbn. intros H. exact H. }
  unfold compare_implementations. rewrite Hb, Hg. split.
  - intros Hf. unfold read_csv at 1. rewrite Hf, Hread. reflexivity.
  - intros bad_data Hbad Hf. rewrite Hbad. unfold read_csv. rewrite Hf, Hread.
    reflexivity.
Qed.

Lemma no_csv_files_iff_witness :
  @compare_implementations micro_text no_series_world = Some (Ok NoCsvFiles).
Proof.
  apply (proj2 (@no_csv_files_iff micro_text no_series_world)).
  left. intros name [v Hv]. unfold no_series_world in Hv. cbn [files] in Hv.
  apply lookup_insert_Some in Hv as [[<- _]|[_ Hv]].
  - reflexivity.
  - rewrite lookup_empty in Hv. discriminate.
Defined.

Lemma blank_file_is_caught_witness :
  @compare_implementations micro_text blank_file_world
  = Some (Ok (LoadError EmptyDataError)).
Proof.
  apply (proj1 (@blank_file_is_caught micro_text blank_file_world
                  "bad_implementation_memory_error.csv"
                  "good_implementation_memory_error.csv"
                  (newline +:+ newline)
                  ltac:(vm_compute; reflexivity)
                  ltac:(vm_compute; reflexivity)
                  ltac:(repeat constructor))).
  vm_compute. reflexivity.
Defined.

(** ** Comparison: the growth report *)

Lemma series_ends (s : list (Q * Q)) :
  s <> [] -> exists i f, head s.*2 = Some i /\ last s.*2 = Some f.
Proof.
  intros Hs. destruct s as [|[t m] s]; [congruence|].
  cbn [fmap list_fmap snd head].
  destruct (last (m :: s.*2)) as [v|] eqn:E; [eauto|].
  apply last_None in E. discriminate.
Qed.

(** X20: for two non-empty series the trend steps of the first figure
    decide whether anything is reported.  When one of the series has two
    or more samples, all at elapsed time 0, the comparison raises
    [LinAlgError].  Otherwise it reports, for each series, the initial and
    the final value, a growth equal to the final minus the initial value,
    which is also the last value of the curve shifted to start from zero,
    and the difference of the two growths; the statistics text is made of
    these seven numbers with two decimals; and for two identical series
    the difference is zero. *)
Theorem growth_report {FT : FloatText} (a b : list (Q * Q)) :
  a <> [] -> b <> [] ->
  (trend_fails a.*1 = true \/ trend_fails b.*1 = true ->
   compare_frames (series_frame a) (series_frame b) = Raise LinAlgError)
  /\ (trend_fails a.*1 = false -> trend_fails b.*1 = false ->
      exists r ia fa ib fb,
        compare_frames (series_frame a) (series_frame b) = Ok r
        /\ head a.*2 = Some ia /\ last a.*2 = Some fa
        /\ head b.*2 = Some ib /\ last b.*2 = Some fb
        /\ bad_initial r = ia /\ bad_final r = fa
        /\ good_initial r = ib /\ good_final r = fb
        /\ bad_growth r = (fa - ia)%Q
        /\ good_growth r = (fb - ib)%Q
        /\ bad_normalized r = map (fun v => v - ia)%Q a.*2
        /\ good_normalized r = map (fun v => v - ib)%Q b.*2
        /\ last (bad_normalized r) = Some (bad_growth r)
        /\ last (good_normalized r) = Some (good_growth r)
        /\ growth_difference r = (bad_growth r - good_growth r)%Q
        /\ stats_text r
           = stats_block "Bad" ia fa (bad_growth r)
             +:+ stats_block "Good" ib fb (good_growth r)
             +:+ "Difference: " +:+ float_fmt2 (growth_difference r) +:+ " MB"
        /\ (a = b -> (growth_difference r == 0)%Q)).
Proof.
  intros Ha Hb. split; [apply compare_frames_trend_fails|].
  intros Hta Htb.
  destruct (series_ends a Ha) as (ia & fa & Hia & Hfa).
  destruct (series_ends b Hb) as (ib & fb & Hib & Hfb).
  destruct (compare_frames_series a b ia fa ib fb Hia Hfa Hib Hfb Hta Htb)
    as (t1 & t2 & t3 & t4 & Hrun).
  eexists _, ia, fa, ib, fb. split; [exact Hrun|]. cbn.
  repeat (split; [first [assumption | reflexivity]|]).
  split; [rewrite fmap_last, Hfa; reflexivity|].
  split; [rewrite fmap_last, Hfb; reflexivity|].
  repeat (split; [reflexivity|]).
  intros ->. assert (ia = ib) by congruence. assert (fa = fb) by congruence.
  subst. ring.
Qed.

Lemma growth_report_witness :
  exists r,
    @compare_frames micro_text (series_frame line_series) (series_frame line_series)
    = Ok r
    /\ bad_growth r = (130 - 100)%Q
    /\ (growth_difference r == 0)%Q.
Proof.
  destruct (@growth_report micro_text line_series line_series)
    as (_ & Hrep); [discriminate|discriminate|].
  destruct (Hrep eq_refl eq_refl)
    as (r & ia & fa & ib & fb & Hrun & Hia & Hfa & _ & _ & _ & _ & _ & _
        & Hg & _ & _ & _ & _ & _ & _ & _ & Hz).
  exists r. split; [exact Hrun|]. split; [|apply Hz; reflexivity].
  rewrite Hg. cbn in Hia, Hfa. congruence.
Defined.

(** ** format_memory *)

Lemma Qle_bool_false (x y : Q) : Qle_bool x y = false <-> (y < x)%Q.
Proof.
  split.
  - intros H. apply Qnot_le_lt. intros Hle. apply Qle_bool_iff in Hle. congruence.
  - intros H. destruct (Qle_bool x y) eqn:E; [|reflexivity].
    apply Qle_bool_iff in E. lra.
Qed.

(** X12: [format_memory] always returns a text, never [None]: a value
    below 1024 (any negative value included) is printed as it is in [B];
    from 1024 it is divided by 1024 and printed in [KB], from 1024^2 in
    [MB], and from 1024^3 on in [GB], however large it is. *)
Theorem format_memory_unit_by_size {FT : FloatText} (b : Q) :
  exists v unit,
    format_memory b = Some (float_fmt2 v +:+ " " +:+ unit)
    /\ ((b < 1024 /\ unit = "B" /\ v = b)%Q
        \/ (1024 <= b /\ b < 1048576 /\ unit = "KB" /\ v = b / 1024)%Q
        \/ (1048576 <= b /\ b < 1073741824 /\ unit = "MB"
            /\ v = b / 1024 / 1024)%Q
        \/ (1073741824 <= b /\ unit = "GB" /\ v = b / 1024 / 1024 / 1024)%Q).
Proof.
  unfold format_memory, memory_units. cbn [format_memory_loop].
  change (String.eqb "B" "GB") with false.
  change (String.eqb "KB" "GB") with false.
  change (String.eqb "MB" "GB") with false.
  change (String.eqb "GB" "GB") with true.
  rewrite !orb_false_r, orb_true_r.
  assert (H1 : (b / 1024 == b * (1 # 1024))%Q) by field.
  assert (H2 : (b / 1024 / 1024 == b * (1 # 1048576))%Q) by field.
  destruct (Qle_bool 1024 b) eqn:E1; cbn [negb].
  - apply Qle_bool_iff in E1.
    destruct (Qle_bool 1024 (b / 1024)) eqn:E2; cbn [negb].
    + apply Qle_bool_iff in E2. rewrite H1 in E2.
      destruct (Qle_bool 1024 (b / 1024 / 1024)) eqn:E3; cbn [negb].
      * apply Qle_bool_iff in E3. rewrite H2 in E3.
        eexists _, _. split; [reflexivity|]. right; right; right.
        split; [lra|]. split; reflexivity.
      * apply Qle_bool_false in E3. rewrite H2 in E3.
        eexists _, _. split; [reflexivity|]. right; right; left.
        split; [lra|]. split; [lra|]. split; reflexivity.
    + apply Qle_bool_false in E2. rewrite H1 in E2.
      eexists _, _. split; [reflexivity|]. right; left.
      split; [lra|]. split; [lra|]. split; reflexivity.
  - apply Qle_bool_false in E1.
    eexists _, _. split; [reflexivity|]. left.
    split; [lra|]. split; reflexivity.
Qed.

(** ** Request handlers: singleton and fresh exception objects *)

Lemma get_set_error (E : Errors) (which : ErrorName) (e : APIException) :
  get_error (set_error E which e) which = e.
Proof. destruct which; reflexivity. Qed.

Lemma leave_frame_intact (E : Errors) (which : ErrorName) (entry : TbEntry) :
  errors_intact E -> errors_intact (leave_frame E which entry).
Proof.
  intros HE which'. specialize (HE which').
  destruct which, which'; cbn in *; exact HE.
Qed.

Lemma caught_bad_response (E : Errors) (which : ErrorName) (rq : Request) :
  errors_intact E ->
  errors_intact (caught_bad E which rq).1
  /\ (caught_bad E which rq).2
     = ApiError (message (new_error which)) (status_code (new_error which))
                (error_code (new_error which)).
Proof.
  intros HE. unfold caught_bad. cbn [fst snd].
  pose proof (leave_frame_intact E which
                (TbHandler rq (payload_or_default rq)) HE) as HE'.
  split; [exact HE'|]. destruct (HE' which) as (-> & -> & ->). reflexivity.
Qed.

Lemma handle_request_bad_good (E : Errors) (self : RequestHandler) (rq : Request) :
  errors_intact E ->
  errors_intact (handle_request_bad E self rq).1
  /\ (handle_request_bad E self rq).2 = handle_request_good self rq.
Proof.
  intros HE.
  unfold handle_request_bad, handle_request_good, handle_request_good_try,
    authenticate_user_bad, authenticate_user_good, get_user_bad, get_user_good.
  destruct (token_rejected (rq_token rq)).
  - apply caught_bad_response, leave_frame_intact, HE.
  - destruct (users_get (user_service self) (rq_user_id rq)) as [u|].
    + split; [exact HE|reflexivity].
    + apply caught_bad_response, leave_frame_intact, HE.
Qed.

(** X13: the response of [handle_request] is decided by the token first and
    the user id second: a missing, empty or ["invalid"] token gives the
    error 401 [TOKEN_INVALID] whatever the user id; otherwise an unknown or
    missing user id gives 404 [USER_NOT_FOUND]; otherwise the request
    succeeds with the stored user, and the authentication always names
    [user1].  No other response occurs. *)
Theorem handle_request_outcomes (self : RequestHandler) (rq : Request) :
  (token_rejected (rq_token rq) = true ->
   handle_request_good self rq
   = ApiError "The provided token is invalid" 401 (Some "TOKEN_INVALID"))
  /\ (token_rejected (rq_token rq) = false ->
      users_get (user_service self) (rq_user_id rq) = None ->
      handle_request_good self rq
      = ApiError "User was not found" 404 (Some "USER_NOT_FOUND"))
  /\ (forall u,
        token_rejected (rq_token rq) = false ->
        users_get (user_service self) (rq_user_id rq) = Some u ->
        handle_request_good self rq = Success u (mkAuthInfo "user1" true))
  /\ (forall u a,
        handle_request_good RequestHandler_init rq = Success u a ->
        rq_user_id rq = Some "user1" \/ rq_user_id rq = Some "user2").
Proof.
  unfold handle_request_good, handle_request_good_try,
    authenticate_user_good, get_user_good.
  split; [|split; [|split]].
  - intros ->. reflexivity.
  - intros -> ->. reflexivity.
  - intros u -> ->. reflexivity.
  - intros u a. destruct (token_rejected (rq_token rq)); [discriminate|].
    destruct (rq_user_id rq) as [k|]; cbn; [|discriminate].
    destruct (decide (k = "user1")) as [->|H1]; [auto|].
    destruct (decide (k = "user2")) as [->|H2]; [auto|].
    rewrite lookup_insert_ne, lookup_insert_ne, lookup_empty by congruence.
    discriminate.
Qed.

Lemma handle_request_outcomes_witness :
  handle_request_good RequestHandler_init
    (mkRequest (Some "user1") (Some "invalid") None)
  = ApiError "The provided token is invalid" 401 (Some "TOKEN_INVALID").
Proof.
  apply (proj1 (handle_request_outcomes RequestHandler_init
                  (mkRequest (Some "user1") (Some "invalid") None))).
  reflexivity.
Defined.

(** X14: served by the handler with singleton exceptions or by the one
    with fresh exceptions, every request gets the same response, however
    many requests the singletons have been raised for before. *)
Theorem singleton_and_fresh_responses_agree (E : Errors) (self : RequestHandler)
        (requests : list Request) :
  errors_intact E ->
  errors_intact (serve_bad E self requests).1
  /\ (serve_bad E self requests).2 = map (handle_request_good self) requests.
Proof.
  revert E. induction requests as [|r rest IH]; intros E HE.
  - split; [exact HE|reflexivity].
  - cbn [serve_bad map].
    destruct (handle_request_bad_good E self r HE) as [HE1 Hresp].
    destruct (handle_request_bad E self r) as [E1 resp]. cbn [fst snd] in *.
    destruct (IH E1 HE1) as [HE2 Hrest].
    destruct (serve_bad E1 self rest) as [E2 resps]. cbn [fst snd] in *.
    split; [exact HE2|]. rewrite Hresp, Hrest. reflexivity.
Qed.

Lemma errors_loaded_intact : errors_intact Errors_loaded.
Proof. intros which. destruct which; repeat split. Qed.

Lemma singleton_and_fresh_responses_agree_witness :
  (serve_bad Errors_loaded RequestHandler_init
     [mkRequest (Some "nobody") (Some "valid") None;
      mkRequest (Some "user2") (Some "valid") None]).2
  = map (handle_request_good RequestHandler_init)
      [mkRequest (Some "nobody") (Some "valid") None;
       mkRequest (Some "user2") (Some "valid") None].
Proof.
  apply (singleton_and_fresh_responses_agree Errors_loaded RequestHandler_init).
  exact errors_loaded_intact.
Defined.

Lemma leave_frame_retained (E : Errors) (which : ErrorName) (entry : TbEntry) :
  length (retained_entries (leave_frame E which entry))
  = S (length (retained_entries E))
  /\ (forall x, x ∈ retained_entries (leave_frame E which entry)
                <-> x = entry \/ x ∈ retained_entries E)
  /\ (which <> AuthenticationFailed ->
      authentication_failed (leave_frame E which entry) = authentication_failed E)
  /\ (which <> ServerError ->
      server_error (leave_frame E which entry) = server_error E).
Proof.
  unfold retained_entries.
  destruct which; cbn; rewrite ?length_app; cbn; rewrite ?length_app;
    (split; [lia|]); (split; [|split; intros H; congruence]);
    intros x; rewrite ?elem_of_app, ?elem_of_cons, ?elem_of_app; tauto.
Qed.

(** One request served by the handler with singleton exceptions: a failing
    request leaves two more entries on the objects of [Errors], one of them
    holding the request, and a request that succeeds leaves them alone. *)
Lemma handle_request_bad_retains (E : Errors) (self : RequestHandler)
      (rq : Request) :
  let E' := (handle_request_bad E self rq).1 in
  (if request_fails self rq
   then length (retained_entries E') = 2 + length (retained_entries E)
        /\ TbHandler rq (payload_or_default rq) ∈ retained_entries E'
   else E' = E)
  /\ (forall x, x ∈ retained_entries E -> x ∈ retained_entries E')
  /\ authentication_failed E' = authentication_failed E
  /\ server_error E' = server_error E.
Proof.
  unfold handle_request_bad, request_fails, authenticate_user_bad, get_user_bad,
    caught_bad.
  destruct (token_rejected (rq_token rq)); cbn [orb fst].
  - pose proof (leave_frame_retained E TokenInvalid
                  (TbService "authenticate_user" (rq_token rq)))
      as (L1 & M1 & A1 & S1).
    pose proof (leave_frame_retained
                  (leave_frame E TokenInvalid
                     (TbService "authenticate_user" (rq_token rq)))
                  TokenInvalid (TbHandler rq (payload_or_default rq)))
      as (L2 & M2 & A2 & S2).
    split; [split|split; [|split]].
    + rewrite L2, L1. reflexivity.
    + apply M2. left. reflexivity.
    + intros x Hx. apply M2. right. apply M1. right. exact Hx.
    + rewrite A2, A1 by discriminate. reflexivity.
    + rewrite S2, S1 by discriminate. reflexivity.
  - destruct (users_get (user_service self) (rq_user_id rq)) as [u|] eqn:Eu;
      cbn [fst].
    + rewrite bool_decide_eq_true_2 by eauto. cbn [negb].
      repeat split. intros x Hx. exact Hx.
    + rewrite bool_decide_eq_false_2 by (intros [? ?]; discriminate). cbn [negb].
      pose proof (leave_frame_retained E UserNotFound
                    (TbService "get_user" (rq_user_id rq)))
        as (L1 & M1 & A1 & S1).
      pose proof (leave_frame_retained
                    (leave_frame E UserNotFound
                       (TbService "get_user" (rq_user_id rq)))
                    UserNotFound (TbHandler rq (payload_or_default rq)))
        as (L2 & M2 & A2 & S2).
      split; [split|split; [|split]].
      * rewrite L2, L1. reflexivity.
      * apply M2. left. reflexivity.
      * intros x Hx. apply M2. right. apply M1. right. exact Hx.
      * rewrite A2, A1 by discriminate. reflexivity.
      * rewrite S2, S1 by discriminate. reflexivity.
Qed.

Lemma serve_bad_retains (self : RequestHandler) (requests : list Request) :
  forall E,
    let E' := (serve_bad E self requests).1 in
    length (retained_entries E')
    = length (retained_entries E)
      + 2 * length (List.filter (request_fails self) requests)
    /\ (forall rq, rq ∈ requests -> request_fails self rq = true ->
          TbHandler rq (payload_or_default rq) ∈ retained_entries E')
    /\ (forall x, x ∈ retained_entries E -> x ∈ retained_entries E')
    /\ authentication_failed E' = authentication_failed E
    /\ server_error E' = server_error E.
Proof.
  induction requests as [|r rest IH]; intros E; cbv zeta.
  - cbn. split; [lia|]. split; [intros rq Hrq; inversion Hrq|]. auto.
  - cbn [serve_bad List.filter].
    pose proof (handle_request_bad_retains E self r) as (Hstep & Hkeep & HA & HS).
    destruct (handle_request_bad E self r) as [E1 resp]. cbn [fst] in *.
    specialize (IH E1). cbv zeta in IH.
    destruct (serve_bad E1 self rest) as [E2 resps]. cbn [fst] in *.
    destruct IH as (IL & IM & IK & IA & IS).
    split; [|split; [|split; [|split]]].
    + rewrite IL. destruct (request_fails self r).
      * destruct Hstep as [-> _]. cbn [length]. lia.
      * subst E1. lia.
    + intros rq Hrq Hfail. apply elem_of_cons in Hrq as [->|Hrq].
      * rewrite Hfail in Hstep. destruct Hstep as [_ Hin]. apply IK, Hin.
      * apply IM; assumption.
    + intros x Hx. apply IK, Hkeep, Hx.
    + rewrite IA. exact HA.
    + rewrite IS. exact HS.
Qed.

(** X15: the handler with singleton exceptions retains every failed
    request: after serving a list of requests the objects of [Errors] carry
    two more traceback entries per failed request, among them the frame
    that holds that request and its payload; successful requests add
    nothing, and the objects [authentication_failed] and [server_error] are
    never raised.  An exception made fresh for one request carries exactly
    two entries, whatever was served before. *)
Theorem singleton_tracebacks_accumulate (E : Errors) (self : RequestHandler)
        (requests : list Request) :
  let E' := (serve_bad E self requests).1 in
  length (retained_entries E')
  = length (retained_entries E)
    + 2 * length (List.filter (request_fails self) requests)
  /\ (forall rq, rq ∈ requests -> request_fails self rq = true ->
        TbHandler rq (payload_or_default rq) ∈ retained_entries E')
  /\ authentication_failed E' = authentication_failed E
  /\ server_error E' = server_error E
  /\ (forall rq e, handle_request_good_try self rq = inl e ->
        length (traceback e) = 2).
Proof.
  cbv zeta.
  destruct (serve_bad_retains self requests E) as (HL & HM & _ & HA & HS).
  split; [exact HL|]. split; [exact HM|]. split; [exact HA|].
  split; [exact HS|].
  intros rq e.
  unfold handle_request_good_try, authenticate_user_good, get_user_good.
  destruct (token_rejected (rq_token rq)); [intros [= <-]; reflexivity|].
  destruct (users_get (user_service self) (rq_user_id rq));
    [discriminate|intros [= <-]; reflexivity].
Qed.

(** ** A test run *)

Lemma hundredth_step_multiple (n : nat) :
  (n mod 100 = 0 -> (n + 99) / 100 + 1 = (S n + 99) / 100)%nat.
Proof.
  intros E.
  pose proof (Nat.div_mod_eq n 100) as H. rewrite E, Nat.add_0_r in H.
  rewrite H.
  replace (S (100 * (n / 100)) + 99)%nat with ((n / 100 + 1) * 100)%nat by lia.
  rewrite Nat.div_mul by lia.
  replace (100 * (n / 100) + 99)%nat with (99 + (n / 100) * 100)%nat by lia.
  rewrite Nat.div_add by lia. reflexivity.
Qed.

Lemma hundredth_step_other (n : nat) :
  (n mod 100 <> 0 -> (n + 99) / 100 + 0 = (S n + 99) / 100)%nat.
Proof.
  intros E.
  pose proof (Nat.div_mod_eq n 100) as H.
  pose proof (Nat.mod_upper_bound n 100 ltac:(lia)) as Hr.
  set (q := (n / 100)%nat) in *. set (r := (n mod 100)%nat) in *.
  rewrite H.
  replace (100 * q + r + 99)%nat with ((r + 99) + q * 100)%nat by lia.
  replace (S (100 * q + r) + 99)%nat with ((r + 100) + q * 100)%nat by lia.
  rewrite !Nat.div_add by lia.
  rewrite <- (Nat.div_unique (r + 99) 100 1 (r - 1)) by lia.
  rewrite <- (Nat.div_unique (r + 100) 100 1 r) by lia. lia.
Qed.

Lemma hundredths_count (n : nat) :
  length (List.filter (fun i => (i mod 100 =? 0)%nat) (seq 0 n))
  = ((n + 99) / 100)%nat.
Proof.
  induction n as [|n IH]; [reflexivity|].
  rewrite seq_S, List.filter_app, length_app, IH.
  change (0 + n)%nat with n. cbn [List.filter].
  destruct (n mod 100 =? 0)%nat eqn:E; cbn [length].
  - apply Nat.eqb_eq in E. apply hundredth_step_multiple, E.
  - apply Nat.eqb_neq in E. apply hundredth_step_other, E.
Qed.

Lemma serve_bad_cons (E : Errors) (self : RequestHandler) (r : Request)
      (rest : list Request) :
  (serve_bad E self (r :: rest)).1
  = (serve_bad (handle_request_bad E self r).1 self rest).1.
Proof.
  cbn [serve_bad]. destruct (handle_request_bad E self r) as [E1 resp].
  cbn [fst]. destruct (serve_bad E1 self rest). reflexivity.
Qed.

(** One call of [_record_point], with the elapsed time it records. *)
Lemma record_point_reading (self : MemoryTracker) (w : World) :
  exists e w',
    _record_point self w
    = Ok (mkTracker (label self) (timestamps self ++ [e])
                    (memory_usage self ++ [next_rss_mb w]) (start_time self), w')
    /\ clock w' = clock w /\ files w' = files w
    /\ elapsed_reading (start_time self) (clock w) e.
Proof.
  destruct (record_point_effect self w)
    as (e & w' & Hrun & Hc & _ & Hf & _ & _ & He).
  exists e, w'. split; [exact Hrun|]. split; [exact Hc|]. split; [exact Hf|].
  unfold elapsed_reading. destruct (start_time self) as [s|].
  - destruct (float_truthy s).
    + exists (clock_reads w). apply He.
    + apply He.
  - apply He.
Qed.

Lemma run_test_loop_effect (handler : RequestHandler) (user_exists : bool)
      (indices : list nat) :
  forall E tracker w,
    length (timestamps tracker) = length (memory_usage tracker) ->
    exists tracker' w' extra,
      run_test_loop handler user_exists indices E tracker w
      = Ok (((serve_bad E handler (map (test_request user_exists) indices)).1,
             tracker'), w')
      /\ length (timestamps tracker') = length (memory_usage tracker')
      /\ timestamps tracker' = timestamps tracker ++ extra
      /\ length extra
         = length (List.filter (fun i => (i mod 100 =? 0)%nat) indices)
      /\ Forall (elapsed_reading (start_time tracker) (clock w)) extra
      /\ start_time tracker' = start_time tracker
      /\ clock w' = clock w
      /\ files w' = files w.
Proof.
  induction indices as [|i rest IH]; intros E tracker w Hlen.
  - exists tracker, w, []. cbn. rewrite app_nil_r.
    repeat split; [exact Hlen|constructor].
  - cbn [run_test_loop map List.filter]. rewrite serve_bad_cons. unfold bind.
    destruct (i mod 100 =? 0)%nat.
    + destruct (record_point_reading tracker w)
        as (e & w1 & Hrun & Hc & Hf & He).
      unfold record. rewrite Hrun.
      match goal with
      | |- context [run_test_loop _ _ rest ?E1 ?t1 w1] =>
          destruct (IH E1 t1 w1)
            as (t2 & w2 & extra & Hrun2 & Hlen2 & Hts & Hn & Hall & Hst & Hc2 & Hf2)
      end.
      { cbn. rewrite !length_app. cbn. lia. }
      cbn [timestamps start_time] in Hts, Hall, Hst.
      exists t2, w2, (e :: extra). split; [exact Hrun2|]. split; [exact Hlen2|].
      split; [rewrite Hts, <- app_assoc; reflexivity|].
      split; [cbn [length]; rewrite Hn; reflexivity|].
      split; [constructor; [exact He|rewrite <- Hc; exact Hall]|].
      split; [exact Hst|]. split; congruence.
    + unfold ret at 1.
      destruct (IH (handle_request_bad E handler (test_request user_exists i)).1
                  tracker w Hlen)
        as (t2 & w2 & extra & Hrun2 & Hrest).
      exists t2, w2, extra. split; [exact Hrun2|exact Hrest].
Qed.

(** The two outcomes of [plot] on a tracker with aligned lists. *)
Lemma plot_outcome (self : MemoryTracker) (title : option string) :
  length (timestamps self) = length (memory_usage self) ->
  if trend_fails (timestamps self)
  then plot self title = Raise LinAlgError
  else exists fig, plot self title = Ok fig.
Proof.
  intros Hlen. unfold plot, trend_line, trend_fails.
  rewrite Hlen, Nat.eqb_refl. cbn [negb]. rewrite <- Hlen.
  destruct (1 <? length (timestamps self))%nat eqn:E; cbn [andb];
    [|eexists; reflexivity].
  apply Nat.ltb_lt in E.
  pose proof (polyfit1_outcome _ _ Hlen ltac:(lia)) as Hfit.
  destruct (all_zero (timestamps self)).
  - rewrite Hfit. reflexivity.
  - destruct Hfit as (z & ->). eexists; reflexivity.
Qed.

Lemma all_zero_Forall (x : list Q) :
  Forall (fun e => Qeq_bool e 0 = true) x -> all_zero x = true.
Proof.
  induction 1 as [|e x He _ IH]; [reflexivity|].
  cbn [all_zero forallb]. rewrite He. exact IH.
Qed.

(** Under a clock that stands still every elapsed time is zero. *)
Lemma stalled_reading (s : Q) (c : nat -> Q) (e : Q) :
  float_truthy s = false \/ (forall j, (c j == s)%Q) ->
  elapsed_reading (Some s) c e -> Qeq_bool e 0 = true.
Proof.
  intros Hst He. unfold elapsed_reading in He.
  destruct (float_truthy s) eqn:Es.
  - destruct Hst as [Hst|Hst]; [discriminate|].
    destruct He as (j & ->). apply Qeq_bool_iff. rewrite (Hst j). ring.
  - subst e. reflexivity.
Qed.

Lemma serve_bad_all_succeed (E : Errors) (self : RequestHandler)
      (requests : list Request) :
  Forall (fun rq => request_fails self rq = false) requests ->
  (serve_bad E self requests).1 = E.
Proof.
  induction 1 as [|r rest Hr _ IH]; [reflexivity|].
  rewrite serve_bad_cons.
  pose proof (handle_request_bad_retains E self r) as (Hstep & _).
  rewrite Hr in Hstep. cbv zeta in Hstep. rewrite Hstep. exact IH.
Qed.

Lemma test_requests_fail (n : nat) :
  List.filter (request_fails RequestHandler_init)
              (map (test_request false) (seq 0 n))
  = map (test_request false) (seq 0 n).
Proof.
  induction (seq 0 n) as [|i l IH]; [reflexivity|].
  cbn [map List.filter].
  change (request_fails RequestHandler_init (test_request false i)) with true.
  cbv iota. rewrite IH. reflexivity.
Qed.

Lemma test_requests_succeed (n : nat) :
  Forall (fun rq => request_fails RequestHandler_init rq = false)
         (map (test_request true) (seq 0 n)).
Proof.
  apply Forall_fmap, Forall_forall. intros i _. reflexivity.
Qed.

(** The measuring part of [run_test]: it returns in every world; the
    tracker it leaves holds the baseline, the samples of the loop, and the
    two final ones. *)
Lemma run_test_measure_effect {FT : FloatText} (E : Errors)
      (num_requests : nat) (user_exists : bool) (w : World) :
  let s := clock w (clock_reads w) in
  exists tracker w' e0 extra e2 e3,
    run_test_measure E num_requests user_exists w
    = Ok (((serve_bad E RequestHandler_init
              (map (test_request user_exists) (seq 0 num_requests))).1,
           tracker, data_file_name user_exists), w')
    /\ length (timestamps tracker) = length (memory_usage tracker)
    /\ timestamps tracker = e0 :: extra ++ [e2; e3]
    /\ length extra = ((num_requests + 99) / 100)%nat
    /\ Forall (elapsed_reading (Some s) (clock w)) (e0 :: extra ++ [e2; e3])
    /\ (float_truthy s = true -> e0 = (clock w (S (clock_reads w)) - s)%Q)
    /\ files w' !! data_file_name user_exists
       = Some (to_csv (series_frame (samples tracker))).
Proof.
  intros s. unfold run_test_measure, start. unfold bind, time_time.
  cbv beta iota. fold s.
  set (w00 := mkWorld (clock w) (S (clock_reads w)) (rss w) (rss_reads w)
                      (now_stamp w) (files w)).
  match goal with
  | |- context [_record_point ?t w00] =>
      destruct (record_point_effect t w00)
        as (e0 & w0 & Hrun0 & Hc0 & _ & _ & _ & _ & He0)
  end.
  rewrite Hrun0. cbn [timestamps memory_usage start_time label app] in *.
  match goal with
  | |- context [run_test_loop _ _ _ E ?t0 w0] =>
      destruct (run_test_loop_effect RequestHandler_init user_exists
                  (seq 0 num_requests) E t0 w0 eq_refl)
        as (t1 & w1 & extra & Hrun1 & Hlen1 & Hts1 & Hn1 & Hall1 & Hst1 & Hc1 & _)
  end.
  rewrite Hrun1. cbn [fst snd timestamps start_time] in *.
  unfold record, stop.
  destruct (record_point_reading t1 w1) as (e2 & w2 & Hrun2 & Hc2 & _ & He2).
  rewrite Hrun2.
  match goal with
  | |- context [_record_point ?t w2] =>
      destruct (record_point_reading t w2) as (e3 & w3 & Hrun3 & Hc3 & _ & He3)
  end.
  rewrite Hrun3. cbn [timestamps memory_usage start_time label] in *.
  match goal with
  | |- context [save_data ?t _ w3] => set (t3 := t) in *
  end.
  assert (Hlen3 : length (timestamps t3) = length (memory_usage t3)).
  { subst t3. cbn. rewrite !length_app. cbn. lia. }
  assert (Hts3 : timestamps t3 = e0 :: extra ++ [e2; e3]).
  { subst t3. cbn. rewrite Hts1. cbn. rewrite <- !app_assoc. reflexivity. }
  rewrite (save_data_effect t3 _ w3 Hlen3).
  replace (nonblank (data_file_name user_exists))
    with true by (destruct user_exists; reflexivity).
  cbv zeta. cbn [fst snd].
  eexists t3, _, e0, extra, e2, e3. split; [reflexivity|].
  split; [exact Hlen3|]. split; [exact Hts3|].
  split; [rewrite Hn1; apply hundredths_count|].
  split; [|split; [|apply lookup_insert_eq]].
  - constructor.
    + unfold elapsed_reading. destruct (float_truthy s).
      * exists (S (clock_reads w)). apply He0.
      * apply He0.
    + assert (K0 : clock w0 = clock w) by exact Hc0.
      assert (K1 : clock w1 = clock w) by congruence.
      assert (K2 : clock w2 = clock w) by congruence.
      rewrite K0 in Hall1. rewrite Hst1, K1 in He2. rewrite Hst1, K2 in He3.
      apply Forall_app. split; [exact Hall1|].
      constructor; [exact He2|]. constructor; [exact He3|constructor].
  - intros Htrue. rewrite Htrue in He0. apply He0.
Qed.

(** X16: [run_test] with [n] requests always gets as far as saving its
    data: the tracker then holds [3 + ceil(n / 100)] samples (the baseline,
    one after every hundredth request counting from the first, one after
    the loop and one from [stop()]) and they are written to
    [bad_implementation_memory_error.csv] (or [..._success.csv]), a name
    that [compare_implementations] looks for.  Every request of the error
    run fails, so the objects of [Errors] carry [2 * n] more traceback
    entries; the success run leaves them as they were.  The plot that
    follows decides the outcome: when every elapsed time of the tracker is
    zero, [run_test] raises [LinAlgError] after the file is written, and
    otherwise it returns.  The first happens when the clock reads 0 at the
    start or stands still, the second when the two readings that [start()]
    makes differ and the first is not 0. *)
Theorem run_test_outcome {FT : FloatText} (E : Errors) (num_requests : nat)
        (user_exists : bool) (w : World) :
  exists E' tracker w',
    run_test_measure E num_requests user_exists w
    = Ok ((E', tracker, data_file_name user_exists), w')
    /\ sample_count tracker = (3 + (num_requests + 99) / 100)%nat
    /\ files w' !! data_file_name user_exists
       = Some (to_csv (series_frame (samples tracker)))
    /\ glob_match "bad_implementation_memory_" ".csv"
                  (data_file_name user_exists) = true
    /\ (if user_exists
        then E' = E
        else length (retained_entries E')
             = (length (retained_entries E) + 2 * num_requests)%nat)
    /\ (if trend_fails (timestamps tracker)
        then run_test E num_requests user_exists w = Raise LinAlgError
        else exists run,
            run_test E num_requests user_exists w = Ok (run, w')
            /\ data_file run = data_file_name user_exists
            /\ test_tracker run = tracker
            /\ test_errors run = E')
    /\ (clock_stalled w -> trend_fails (timestamps tracker) = true)
    /\ (float_truthy (clock w (clock_reads w)) = true ->
        ~ (clock w (S (clock_reads w)) == clock w (clock_reads w))%Q ->
        trend_fails (timestamps tracker) = false).
Proof.
  destruct (run_test_measure_effect E num_requests user_exists w)
    as (t3 & w' & e0 & extra & e2 & e3
        & Hrun & Hlen3 & Hts3 & Hn & Hall & He0 & Hfile).
  assert (Hcount : length (timestamps t3) = (3 + (num_requests + 99) / 100)%nat).
  { rewrite Hts3. cbn. rewrite length_app, Hn. cbn. lia. }
  eexists _, t3, w'. split; [exact Hrun|].
  split; [rewrite (samples_aligned_count _ Hlen3); exact Hcount|].
  split; [exact Hfile|].
  split; [destruct user_exists; reflexivity|].
  split.
  { destruct user_exists.
    - apply serve_bad_all_succeed, test_requests_succeed.
    - destruct (serve_bad_retains RequestHandler_init
                  (map (test_request false) (seq 0 num_requests)) E) as (HL & _).
      rewrite HL, test_requests_fail, length_map, length_seq. reflexivity. }
  split.
  { unfold run_test. unfold bind. rewrite Hrun. cbn [fst snd]. unfold lift.
    pose proof (plot_outcome t3
      (Some ("Memory Usage with Singleton Exceptions - "
             +:+ (if user_exists then "Successful" else "Error") +:+ " Requests"))
      Hlen3) as Hplot.
    destruct (trend_fails (timestamps t3)).
    - rewrite Hplot. reflexivity.
    - destruct Hplot as (fig & ->). eexists. split; [reflexivity|].
      repeat split. }
  assert (Hlong : (1 <? length (timestamps t3))%nat = true).
  { apply Nat.ltb_lt. rewrite Hcount. lia. }
  split.
  - intros Hstall. unfold trend_fails. rewrite Hlong. cbn [andb].
    rewrite Hts3. apply all_zero_Forall.
    eapply Forall_impl; [exact Hall|]. intros e He.
    apply (stalled_reading (clock w (clock_reads w)) (clock w));
      [exact Hstall|exact He].
  - intros Htrue Hne. unfold trend_fails. rewrite Hlong. cbn [andb].
    rewrite Hts3. cbn [all_zero forallb]. rewrite (He0 Htrue).
    destruct (Qeq_bool (clock w (S (clock_reads w)) - clock w (clock_reads w)) 0)
      eqn:Ez; [|reflexivity].
    exfalso. apply Hne. apply Qeq_bool_iff in Ez. lra.
Qed.

(** In a world whose clock reads 0 at the start the test run writes its
    data and fails in the plot; in the example world it returns. *)
Lemma run_test_outcome_witness :
  @run_test micro_text Errors_loaded 150 false epoch_world = Raise LinAlgError
  /\ exists run w',
      @run_test micro_text Errors_loaded 150 false demo_world = Ok (run, w').
Proof.
  destruct (@run_test_outcome micro_text Errors_loaded 150 false epoch_world)
    as (E1 & t1 & w1 & _ & _ & _ & _ & _ & Hout1 & Hstall & _).
  destruct (@run_test_outcome micro_text Errors_loaded 150 false demo_world)
    as (E2 & t2 & w2 & _ & _ & _ & _ & _ & Hout2 & _ & Hmoves).
  split.
  - rewrite Hstall in Hout1; [exact Hout1|]. left. reflexivity.
  - rewrite Hmoves in Hout2.
    + destruct Hout2 as (run & Hrun & _). exists run, w2. exact Hrun.
    + reflexivity.
    + intros H. vm_compute in H. discriminate H.
Defined.

(** ** The content of a run *)

Lemma seq_ends {A} (f : nat -> A) (k : nat) :
  (f 0%nat :: map (fun i => f (S i)) (seq 0 k)) ++ [f (S k)]
  = map f (seq 0 (k + 2)).
Proof.
  replace (k + 2)%nat with (S (S k)) by lia.
  change (seq 0 (S (S k))) with (0%nat :: seq 1 (S k)).
  rewrite <- seq_shift, seq_S. cbn [map]. rewrite map_map, map_app. reflexivity.
Qed.

Lemma record_times_content (k : nat) :
  forall (self : MemoryTracker) (w : World) (s : Q),
    start_time self = Some s -> float_truthy s = true ->
    exists self' w',
      record_times k self w = Ok (self', w')
      /\ timestamps self'
         = timestamps self
           ++ map (fun i => (clock w (clock_reads w + i) - s)%Q) (seq 0 k)
      /\ memory_usage self'
         = memory_usage self
           ++ map (fun i => mb_of_bytes (rss w (rss_reads w + i))) (seq 0 k)
      /\ start_time self' = Some s
      /\ clock w' = clock w /\ rss w' = rss w
      /\ clock_reads w' = (clock_reads w + k)%nat
      /\ rss_reads w' = (rss_reads w + k)%nat.
Proof.
  induction k as [|k IH]; intros self w s Hs Ht.
  - exists self, w. cbn. rewrite !app_nil_r, !Nat.add_0_r. repeat split. exact Hs.
  - cbn [record_times]. unfold bind, record.
    destruct (record_point_effect self w)
      as (e & w1 & Hrun & Hc & Hr & _ & _ & Hrr & He).
    rewrite Hs, Ht in He. destruct He as [-> Hcr]. rewrite Hrun.
    match goal with
    | |- context [record_times k ?t w1] =>
        destruct (IH t w1 s Hs Ht)
          as (t2 & w2 & Hrun2 & Hts & Hms & Hst & Hc2 & Hr2 & Hcr2 & Hrr2)
    end.
    exists t2, w2. split; [exact Hrun2|]. cbn [timestamps memory_usage] in Hts, Hms.
    rewrite Hts, Hms, Hc, Hr, Hcr, Hrr, <- !app_assoc.
    cbn [seq map]. rewrite <- !seq_shift, !map_map, !Nat.add_0_r.
    split; [|split; [|split; [exact Hst|split; [congruence|split;
      [congruence|split; lia]]]]].
    + f_equal. cbn [app]. f_equal. apply map_ext. intros i.
      replace (S (clock_reads w) + i)%nat with (clock_reads w + S i)%nat by lia.
      reflexivity.
    + f_equal. cbn [app]. f_equal. apply map_ext. intros i.
      replace (S (rss_reads w) + i)%nat with (rss_reads w + S i)%nat by lia.
      reflexivity.
Qed.

(** X17: the series of a usual run, [start()], [k] times [record()],
    [stop()], holds [k + 2] samples: sample [i] is the [i]-th memory
    reading made since the start, in megabytes, at the elapsed time between
    the clock reading of [start()] and the [i+1]-st reading after it.  The
    run makes [k + 2] memory queries and [k + 3] clock readings. *)
Theorem harness_run_content (lbl : option string) (k : nat) (w : World) :
  float_truthy (clock w (clock_reads w)) = true ->
  exists self' w',
    harness_run lbl k w = Ok (self', w')
    /\ timestamps self'
       = map (fun i => (clock w (S (clock_reads w) + i)
                        - clock w (clock_reads w))%Q) (seq 0 (k + 2))
    /\ memory_usage self'
       = map (fun i => mb_of_bytes (rss w (rss_reads w + i))) (seq 0 (k + 2))
    /\ clock_reads w' = (clock_reads w + k + 3)%nat
    /\ rss_reads w' = (rss_reads w + k + 2)%nat.
Proof.
  intros Ht. unfold harness_run, start, stop, bind, time_time.
  cbv beta iota. set (s := clock w (clock_reads w)) in *.
  match goal with
  | |- context [_record_point ?t ?w0] =>
      destruct (record_point_effect t w0)
        as (e1 & w1 & Hrun1 & Hc1 & Hr1 & _ & _ & Hrr1 & He1)
  end.
  cbn [start_time] in He1. rewrite Ht in He1. destruct He1 as [-> Hcr1].
  rewrite Hrun1. cbv beta iota.
  match goal with
  | |- context [record_times k ?t w1] =>
      destruct (record_times_content k t w1 s eq_refl Ht)
        as (t2 & w2 & Hrun2 & Hts2 & Hms2 & Hst2 & Hc2 & Hr2 & Hcr2 & Hrr2)
  end.
  rewrite Hrun2. cbv beta iota.
  destruct (record_point_effect t2 w2)
    as (e3 & w3 & Hrun3 & Hc3 & Hr3 & _ & _ & Hrr3 & He3).
  rewrite Hst2, Ht in He3. destruct He3 as [-> Hcr3].
  eexists _, w3. split; [exact Hrun3|].
  cbn [clock clock_reads rss rss_reads timestamps memory_usage app] in *.
  unfold next_rss_mb in *. cbn [rss rss_reads] in *.
  rewrite Hts2, Hms2, ?Hcr3, ?Hrr3, ?Hc2, ?Hr2, ?Hcr2, ?Hrr2,
    ?Hc1, ?Hr1, ?Hcr1, ?Hrr1.
  fold (mb_of_bytes (rss w (rss_reads w))).
  fold (mb_of_bytes (rss w (S (rss_reads w) + k))).
  rewrite <- (seq_ends (fun i => (clock w (S (clock_reads w) + i) - s)%Q) k),
    <- (seq_ends (fun i => mb_of_bytes (rss w (rss_reads w + i))) k).
  split; [|split; [|split; lia]].
  - cbn [app]. f_equal; [f_equal; f_equal; lia|]. f_equal.
    + apply map_ext. intros i. f_equal. f_equal. lia.
    + f_equal. f_equal. f_equal. lia.
  - cbn [app]. f_equal; [f_equal; f_equal; lia|]. f_equal.
    + apply map_ext. intros i. f_equal. f_equal. lia.
    + f_equal. f_equal. f_equal. lia.
Qed.

Lemma harness_run_content_witness :
  exists self' w',
    harness_run None 2 demo_world = Ok (self', w')
    /\ length (memory_usage self') = 4%nat
    /\ rss_reads w' = 4%nat.
Proof.
  destruct (harness_run_content None 2 demo_world eq_refl)
    as (t & w' & Hrun & _ & Hms & _ & Hrr).
  exists t, w'. split; [exact Hrun|]. split; [rewrite Hms; reflexivity|exact Hrr].
Defined.

(** ** Errors of the comparison step *)

(** X18: only the loading of the two files is guarded.  Once both selected
    files have loaded, whatever the comparison of the frames raises leaves
    [compare_implementations] uncaught: in particular [KeyError] when a
    file does not name its columns [timestamp] and [memory_mb]; and when
    the comparison returns, so does the function. *)
Theorem comparison_errors_propagate {FT : FloatText} (w : World)
        (bad_csv good_csv : string) (bad_data good_data : DataFrame) :
  last (sorted (glob "bad_implementation_memory_" ".csv" w)) = Some bad_csv ->
  last (sorted (glob "good_implementation_memory_" ".csv" w)) = Some good_csv ->
  read_csv bad_csv w = Some (Ok bad_data) ->
  read_csv good_csv w = Some (Ok good_data) ->
  (forall e, compare_frames bad_data good_data = Raise e ->
             compare_implementations w = Some (Raise e))
  /\ (~ (has_column bad_data "timestamp" /\ has_column bad_data "memory_mb"
         /\ has_column good_data "timestamp" /\ has_column good_data "memory_mb") ->
      compare_implementations w = Some (Raise KeyError))
  /\ (forall r, compare_frames bad_data good_data = Ok r ->
                compare_implementations w = Some (Ok (Compared r))).
Proof.
  intros Hb Hg Hbd Hgd. unfold compare_implementations.
  rewrite Hb, Hg, Hbd, Hgd. split; [|split].
  - intros e ->. reflexivity.
  - intros Hmiss. rewrite (missing_column_raises _ _ Hmiss). reflexivity.
  - intros r ->. reflexivity.
Qed.

Lemma comparison_errors_propagate_witness :
  @compare_implementations micro_text renamed_columns_world
  = Some (Raise KeyError).
Proof.
  edestruct (@comparison_errors_propagate micro_text renamed_columns_world
               "bad_implementation_memory_error.csv"
               "good_implementation_memory_error.csv")
    as (_ & Hkey & _).
  - vm_compute. reflexivity.
  - vm_compute. reflexivity.
  - vm_compute. reflexivity.
  - vm_compute. reflexivity.
  - apply Hkey. intros (H & _). unfold has_column in H. cbn in H.
    apply elem_of_cons in H as [H|H]; [discriminate H|].
    apply elem_of_cons in H as [H|H]; [discriminate H|].
    inversion H.
Defined.

(** ** A start time that tests false *)

Lemma record_times_falsy (k : nat) :
  forall (self : MemoryTracker) (w : World) (s : Q),
    start_time self = Some s -> float_truthy s = false ->
    exists self' w',
      record_times k self w = Ok (self', w')
      /\ timestamps self' = timestamps self ++ replicate k 0%Q
      /\ length (memory_usage self') = (length (memory_usage self) + k)%nat
      /\ start_time self' = Some s
      /\ clock_reads w' = clock_reads w.
Proof.
  induction k as [|k IH]; intros self w s Hs Ht.
  - exists self, w. cbn. rewrite app_nil_r. repeat split; [lia|exact Hs].
  - cbn [record_times]. unfold bind, record.
    destruct (record_point_effect self w)
      as (e & w1 & Hrun & _ & _ & _ & _ & _ & He).
    rewrite Hs, Ht in He. destruct He as [-> Hcr]. rewrite Hrun.
    match goal with
    | |- context [record_times k ?t w1] =>
        destruct (IH t w1 s Hs Ht) as (t2 & w2 & Hrun2 & Hts & Hms & Hst & Hcr2)
    end.
    exists t2, w2. split; [exact Hrun2|]. cbn [timestamps memory_usage] in Hts, Hms.
    rewrite Hts, Hms, <- app_assoc, length_app. cbn [length].
    split; [reflexivity|]. split; [lia|]. split; [exact Hst|congruence].
Qed.

(** X19: the start time is tested for truth, not for presence: when the
    clock reads exactly 0 at [start()], the tracker behaves as if it had
    never been started.  Every elapsed time of the run is recorded as 0,
    however much time passes, and the clock is not read again after
    [start()]. *)
Theorem zero_start_time_hides_elapsed (lbl : option string) (k : nat)
        (w : World) :
  (clock w (clock_reads w) == 0)%Q ->
  exists self' w',
    harness_run lbl k w = Ok (self', w')
    /\ timestamps self' = replicate (k + 2) 0%Q
    /\ sample_count self' = (k + 2)%nat
    /\ clock_reads w' = S (clock_reads w).
Proof.
  intros Hz.
  assert (Ht : float_truthy (clock w (clock_reads w)) = false).
  { unfold float_truthy. apply Qeq_bool_iff in Hz. rewrite Hz. reflexivity. }
  unfold harness_run, start, stop, bind, time_time. cbv beta iota.
  set (s := clock w (clock_reads w)) in *.
  match goal with
  | |- context [_record_point ?t ?w0] =>
      destruct (record_point_effect t w0)
        as (e1 & w1 & Hrun1 & _ & _ & _ & _ & _ & He1)
  end.
  cbn [start_time] in He1. rewrite Ht in He1. destruct He1 as [-> Hcr1].
  rewrite Hrun1. cbv beta iota.
  match goal with
  | |- context [record_times k ?t w1] =>
      destruct (record_times_falsy k t w1 s eq_refl Ht)
        as (t2 & w2 & Hrun2 & Hts2 & Hms2 & Hst2 & Hcr2)
  end.
  rewrite Hrun2. cbv beta iota.
  destruct (record_point_effect t2 w2)
    as (e3 & w3 & Hrun3 & _ & _ & _ & _ & _ & He3).
  rewrite Hst2, Ht in He3. destruct He3 as [-> Hcr3].
  eexists _, w3. split; [exact Hrun3|].
  cbn [timestamps memory_usage clock_reads app length] in *.
  assert (Hts : timestamps t2 ++ [0%Q] = replicate (k + 2) 0%Q).
  { rewrite Hts2. replace (k + 2)%nat with (1 + k + 1)%nat by lia.
    rewrite !replicate_add. cbn [replicate app]. reflexivity. }
  split; [exact Hts|]. split; [|congruence].
  unfold sample_count, samples. cbn [timestamps memory_usage].
  rewrite length_zip_with, Hts, length_replicate, length_app, Hms2.
  cbn [length]. lia.
Qed.

Lemma zero_start_time_hides_elapsed_witness :
  exists self' w',
    harness_run None 3 epoch_world = Ok (self', w')
    /\ timestamps self' = replicate 5 0%Q
    /\ clock_reads w' = 1%nat.
Proof.
  destruct (zero_start_time_hides_elapsed None 3 epoch_world)
    as (t & w' & Hrun & Hts & _ & Hcr); [reflexivity|].
  exists t, w'. split; [exact Hrun|]. split; [exact Hts|exact Hcr].
Defined.
